(** * GithubRepositoryReader: a shallow embedding of
      loader_hub/github_repo/base.py and the properties of its filter
      engine, tree walker and document synthesizer.

    Conventions of the embedding.
    - Python [str] is [string]; [bytes] is [list Byte.byte]; [int] is [Z].
    - A Python exception is a value of [exn] (its class and its message).
    - Code that talks to the GitHub client, to the file system or to the
      logger runs in the monad [M]: a state monad over [World] whose result
      is a return value, a raised exception, or [Diverges] when the fuel of
      the recursive tree walk is used up.
    - [print_if_verbose] only writes to standard output; its calls are left
      out.  [logger.error] is kept (field [logged] of the world).
    - Functions of the Python standard library and of llama_index that the
      reader calls but does not define ([base64.b64decode], [bytes.decode],
      [get_file_extension], [DEFAULT_FILE_EXTRACTOR],
      [BufferedGitBlobDataIterator]) are Section variables: every theorem
      holds for all of them. *)

From Stdlib Require Import ZArith String Ascii List Bool Lia Strings.Byte.
From stdpp Require Import gmap strings list fin_maps pretty.

Local Open Scope string_scope.
Local Open Scope Z_scope.

(* ===================================================================== *)
(** ** Python values *)
(* ===================================================================== *)

Abbreviation bytes := (list Byte.byte).

(** The exception classes the reader meets.  [KeyboardInterrupt] and
    [SystemExit] derive from [BaseException] only; everything else derives
    from [Exception].  [OtherException] stands for the errors of the
    collaborators (API client, parsers). *)
Inductive exn_class :=
  | ValueError
  | TypeError
  | AssertionError
  | BinasciiError
  | UnicodeDecodeError
  | FileNotFoundError
  | OtherException (name : string)
  | KeyboardInterrupt
  | SystemExit.

Inductive exn := Exn (cls : exn_class) (msg : string).

Definition exn_cls (e : exn) : exn_class := let 'Exn c _ := e in c.
Definition exn_msg (e : exn) : string := let 'Exn _ m := e in m.

(** [isinstance(e, Exception)] *)
Definition is_Exception (e : exn) : bool :=
  match exn_cls e with
  | KeyboardInterrupt | SystemExit => false
  | _ => true
  end.

Definition is_BinasciiError (e : exn) : bool :=
  match exn_cls e with BinasciiError => true | _ => false end.

Definition is_UnicodeDecodeError (e : exn) : bool :=
  match exn_cls e with UnicodeDecodeError => true | _ => false end.

(** The result of a call that has no effect on the world. *)
Inductive result (A : Type) :=
  | Ok (a : A)
  | Raise (e : exn).
Arguments Ok {A} a.
Arguments Raise {A} e.

(* ===================================================================== *)
(** ** Strings: the [str] methods and [os.path] functions the reader uses *)
(* ===================================================================== *)

(** [s.startswith(p)] *)
Definition startswith (s p : string) : bool := String.prefix p s.

(** [s.endswith("/")] *)
Fixpoint endswith_slash (s : string) : bool :=
  match s with
  | EmptyString => false
  | String c EmptyString => Ascii.eqb c "/"
  | String _ s' => endswith_slash s'
  end.

(** [os.path.join(a, b)] of posixpath, for two components. *)
Definition os_path_join (a b : string) : string :=
  if startswith b "/" then b
  else if (a =? "")%string || endswith_slash a then a +:+ b
  else a +:+ "/" +:+ b.

(** [s.split(sep)] for a one-character separator: never the empty list. *)
Fixpoint split (sep : ascii) (s : string) : list string :=
  match s with
  | EmptyString => [EmptyString]
  | String c s' =>
      if Ascii.eqb c sep then EmptyString :: split sep s'
      else match split sep s' with
           | [] => [String c EmptyString]
           | hd :: tl => String c hd :: tl
           end
  end.

(** [full_path.split("/")[-1]] *)
Definition last_segment (full_path : string) : string :=
  List.last (split "/" full_path) EmptyString.

Definition newline : string := String "010"%char EmptyString.

(** ["\n\n".join(parts)] *)
Definition join_double_newline (parts : list string) : string :=
  String.concat (newline +:+ newline) parts.

(* ===================================================================== *)
(** ** The world: file system, API call log, error log *)
(* ===================================================================== *)

Inductive fs_node :=
  | Dir
  | File (content : bytes).

Inductive api_call :=
  | GetCommit (owner repo commit_sha : string)
  | GetBranch (owner repo branch : string)
  | GetTree (owner repo tree_sha : string)
  | GetBlob (owner repo blob_sha : string).

Record World := mkWorld {
  fs : gmap string fs_node;      (* path -> directory or file *)
  calls : list api_call;         (* requests sent to the API, oldest first *)
  logged : list string           (* messages of logger.error, oldest first *)
}.

Definition set_fs (w : World) (f : gmap string fs_node) : World :=
  {| fs := f; calls := calls w; logged := logged w |}.

Inductive outcome (A : Type) :=
  | Returns (a : A) (w : World)
  | Raises (e : exn) (w : World)
  | Diverges.
Arguments Returns {A} a w.
Arguments Raises {A} e w.
Arguments Diverges {A}.

Definition M (A : Type) : Type := World -> outcome A.

Definition ret {A} (a : A) : M A := fun w => Returns a w.

Definition bind {A B} (m : M A) (k : A -> M B) : M B :=
  fun w =>
    match m w with
    | Returns a w' => k a w'
    | Raises e w' => Raises e w'
    | Diverges => Diverges
    end.

Definition raise {A} (e : exn) : M A := fun w => Raises e w.

Definition out_of_fuel {A} : M A := fun _ => Diverges.

Definition lift {A} (r : result A) : M A :=
  match r with
  | Ok a => ret a
  | Raise e => raise e
  end.

Declare Scope py_scope.
Delimit Scope py_scope with py.
Notation "x <- c ;; k" := (bind c (fun x => k))
  (at level 100, c at next level, right associativity) : py_scope.
Notation "c ;;; k" := (bind c (fun _ => k))
  (at level 100, right associativity) : py_scope.
Local Open Scope py_scope.

(** [try: body  except <classes matched by catches> as e: handler e] *)
Definition try_except {A} (body : M A) (catches : exn -> bool)
    (handler : exn -> M A) : M A :=
  fun w =>
    match body w with
    | Raises e w' => if catches e then handler e w' else Raises e w'
    | o => o
    end.

(** [try: body  finally: final].  The clean-up runs on every exit of the
    body; an exception of the clean-up replaces the pending one. *)
Definition try_finally {A} (body : M A) (final : M unit) : M A :=
  fun w =>
    match body w with
    | Returns a w' =>
        match final w' with
        | Returns _ w'' => Returns a w''
        | Raises e w'' => Raises e w''
        | Diverges => Diverges
        end
    | Raises e w' =>
        match final w' with
        | Returns _ w'' => Raises e w''
        | Raises e' w'' => Raises e' w''
        | Diverges => Diverges
        end
    | Diverges => Diverges
    end.

(** [assert cond, msg] *)
Definition assert_ (cond : bool) (msg : string) : M unit :=
  if cond then ret tt else raise (Exn AssertionError msg).

(** [logger.error(msg)] *)
Definition logger_error (msg : string) : M unit :=
  fun w => Returns tt {| fs := fs w; calls := calls w; logged := logged w ++ [msg] |}.

(** The outcome with its value mapped, the world untouched. *)
Definition outcome_map {A B} (f : A -> B) (o : outcome A) : outcome B :=
  match o with
  | Returns a w => Returns (f a) w
  | Raises e w => Raises e w
  | Diverges => Diverges
  end.

Definition final_world {A} (o : outcome A) : option World :=
  match o with
  | Returns _ w => Some w
  | Raises _ w => Some w
  | Diverges => None
  end.

(* ===================================================================== *)
(** ** The GitHub client and its response models *)
(* ===================================================================== *)

(** [GitTreeResponseModel.GitTreeObject]: the fields the reader reads. *)
Module GitTreeObject.
Record t := mk {
  path : string;   (* name segment of the child *)
  type : string;   (* "tree", "blob", or something else (e.g. "commit") *)
  sha : string
}.
End GitTreeObject.

(** [GitTreeResponseModel] *)
Module GitTreeResponseModel.
Record t := mk {
  sha : string;
  tree : list GitTreeObject.t
}.
End GitTreeResponseModel.

(** [GitBlobResponseModel] *)
Module GitBlobResponseModel.
Record t := mk {
  content : string;
  encoding : string;
  sha : string
}.
End GitBlobResponseModel.

(** [BaseGithubClient].  A response is a function of the request; a request
    may fail.  [get_commit] and [get_branch] are reduced to the one field the
    reader reads: [commit_response.commit.tree.sha] and
    [branch_data.commit.commit.tree.sha]. *)
Record BaseGithubClient := mkClient {
  get_commit : string -> string -> string -> result string;
  get_branch : string -> string -> string -> result string;
  get_tree : string -> string -> string -> result GitTreeResponseModel.t;
  get_blob : string -> string -> string -> result GitBlobResponseModel.t
}.

(** A request: it is logged, then its response is returned or its error
    raised. *)
Definition request {A} (c : api_call) (response : result A) : M A :=
  fun w =>
    lift response {| fs := fs w; calls := calls w ++ [c]; logged := logged w |}.

(* ===================================================================== *)
(** ** The reader *)
(* ===================================================================== *)

(** [GithubRepositoryReader.FilterType].  The enumeration has exactly these
    two members, so the final [else: raise ValueError] of the two filter
    checks is not reachable with a [FilterType]. *)
Inductive FilterType := EXCLUDE | INCLUDE.

Record GithubRepositoryReader := mkReader {
  _owner : string;
  _repo : string;
  _use_parser : bool;
  _verbose : bool;
  _concurrent_requests : Z;
  _filter_directories : option (list string * FilterType);
  _filter_file_extensions : option (list string * FilterType);
  _github_client : BaseGithubClient
}.

(** [GithubRepositoryReader.__init__]: every argument is stored as given.
    (The event loop it sets up has no counterpart here.) *)
Definition __init__ (github_client : BaseGithubClient) (owner repo : string)
    (use_parser verbose : bool) (concurrent_requests : Z)
    (filter_directories filter_file_extensions : option (list string * FilterType))
    : result GithubRepositoryReader :=
  Ok {| _owner := owner;
        _repo := repo;
        _use_parser := use_parser;
        _verbose := verbose;
        _concurrent_requests := concurrent_requests;
        _filter_directories := filter_directories;
        _filter_file_extensions := filter_file_extensions;
        _github_client := github_client |}.

(** [a, b = None] *)
Definition unpack_None : exn :=
  Exn TypeError "cannot unpack non-iterable NoneType object".

(** [x in xs] for a list of strings *)
Definition str_in (x : string) (xs : list string) : bool :=
  existsb (String.eqb x) xs.

(** The test both branches of [_check_filter_directories] evaluate:
    [any(tree_obj_path.startswith(d) or d.startswith(tree_obj_path)
         for d in filter_directories)] *)
Definition any_prefix_related (tree_obj_path : string)
    (filter_directories : list string) : bool :=
  existsb (fun directory =>
             startswith tree_obj_path directory
             || startswith directory tree_obj_path)
          filter_directories.

(** [GithubRepositoryReader._check_filter_directories] *)
Definition _check_filter_directories (self : GithubRepositoryReader)
    (tree_obj_path : string) : result bool :=
  match _filter_directories self with
  | None => Raise unpack_None
  | Some (filter_directories, filter_type) =>
      match filter_type with
      | EXCLUDE => Ok (negb (any_prefix_related tree_obj_path filter_directories))
      | INCLUDE => Ok (any_prefix_related tree_obj_path filter_directories)
      end
  end.

Abbreviation blob_and_path := (GitTreeObject.t * string)%type.

Section Walk.

(** [utils.get_file_extension] *)
Variable get_file_extension : string -> string.

(** [GithubRepositoryReader._check_filter_file_extensions] *)
Definition _check_filter_file_extensions (self : GithubRepositoryReader)
    (tree_obj_path : string) : result bool :=
  match _filter_file_extensions self with
  | None => Raise unpack_None
  | Some (filter_file_extensions, filter_type) =>
      match filter_type with
      | EXCLUDE =>
          Ok (negb (str_in (get_file_extension tree_obj_path) filter_file_extensions))
      | INCLUDE =>
          Ok (str_in (get_file_extension tree_obj_path) filter_file_extensions)
      end
  end.

(** [GithubRepositoryReader._allow_tree_obj].  No method of the reader
    calls it. *)
Definition _allow_tree_obj (self : GithubRepositoryReader)
    (tree_obj_path : string) : result bool :=
  match _filter_directories self with
  | Some _ => _check_filter_directories self tree_obj_path
  | None =>
      match _filter_file_extensions self with
      | Some _ => _check_filter_file_extensions self tree_obj_path
      | None => Ok true
      end
  end.

(** The [for tree_obj in tree_data.tree] loop of [_recurse_tree];
    [recurse] is the recursive call and [blobs_and_full_paths] the list
    built so far. *)
Fixpoint recurse_tree_loop
    (recurse : string -> string -> Z -> M (list blob_and_path))
    (self : GithubRepositoryReader) (current_path : string) (current_depth : Z)
    (tree_objs : list GitTreeObject.t)
    (blobs_and_full_paths : list blob_and_path) : M (list blob_and_path) :=
  match tree_objs with
  | [] => ret blobs_and_full_paths
  | tree_obj :: rest =>
      let file_path := os_path_join current_path (GitTreeObject.path tree_obj) in
      if (GitTreeObject.type tree_obj =? "tree")%string then
        allowed <- lift (_check_filter_directories self file_path) ;;
        if negb allowed then
          recurse_tree_loop recurse self current_path current_depth rest
            blobs_and_full_paths
        else
          sub <- recurse (GitTreeObject.sha tree_obj) file_path (current_depth + 1) ;;
          recurse_tree_loop recurse self current_path current_depth rest
            (blobs_and_full_paths ++ sub)
      else if (GitTreeObject.type tree_obj =? "blob")%string then
        allowed <- lift (_check_filter_file_extensions self file_path) ;;
        if negb allowed then
          recurse_tree_loop recurse self current_path current_depth rest
            blobs_and_full_paths
        else
          recurse_tree_loop recurse self current_path current_depth rest
            (blobs_and_full_paths ++ [(tree_obj, file_path)])
      else
        recurse_tree_loop recurse self current_path current_depth rest
          blobs_and_full_paths
  end.

(** [GithubRepositoryReader._recurse_tree].  The Python recursion follows
    the trees the client returns and has no bound of its own; [fuel]
    bounds its depth here, and the walk [Diverges] when it runs out. *)
Fixpoint _recurse_tree (fuel : nat) (self : GithubRepositoryReader)
    (tree_sha current_path : string) (current_depth : Z)
    : M (list blob_and_path) :=
  match fuel with
  | O => out_of_fuel
  | S fuel' =>
      tree_data <- request (GetTree (_owner self) (_repo self) tree_sha)
                     (get_tree (_github_client self) (_owner self) (_repo self)
                        tree_sha) ;;
      recurse_tree_loop (_recurse_tree fuel' self) self current_path
        current_depth (GitTreeResponseModel.tree tree_data) []
  end.

End Walk.

(* ===================================================================== *)
(** ** Temporary files: [tempfile] and [os.remove] on the modelled file system *)
(* ===================================================================== *)

Definition max_name_length (f : gmap string fs_node) : nat :=
  foldr (fun name n => Nat.max (String.length name) n) 0%nat (elements (dom f)).

Fixpoint padding (n : nat) : string :=
  match n with
  | O => EmptyString
  | S n' => String "x" (padding n')
  end.

(** [tempfile] draws random names until one is unused.  Here the name is
    fixed by the file system: [pre], then more characters than the longest
    existing path has, then [suffix]; such a name is unused as well. *)
Definition unique_name (f : gmap string fs_node) (pre suffix : string) : string :=
  pre +:+ padding (S (max_name_length f)) +:+ suffix.

(** [p] is [d] or lies below [d]. *)
Definition inside (d p : string) : bool :=
  (p =? d)%string || startswith p (d +:+ "/").

(** [tempfile.mkdtemp()] *)
Definition mkdtemp : M string :=
  fun w =>
    let d := unique_name (fs w) "/tmp/tmp" "" in
    Returns d (set_fs w (<[d := Dir]> (fs w))).

(** [shutil.rmtree(d)], as [TemporaryDirectory.cleanup] calls it. *)
Definition rmtree (d : string) : M unit :=
  fun w =>
    Returns tt (set_fs w (filter (fun kv => inside d kv.1 = false) (fs w))).

(** [with tempfile.TemporaryDirectory() as tmpdirname: body] *)
Definition with_TemporaryDirectory {A} (body : string -> M A) : M A :=
  tmpdirname <- mkdtemp ;;
  try_finally (body tmpdirname) (rmtree tmpdirname).

(** The creation of [tempfile.NamedTemporaryFile(dir=d, suffix=suffix,
    mode="w+b", delete=False)]: a new empty file in [d]. *)
Definition create_named_temporary_file (d suffix : string) : M string :=
  fun w =>
    match fs w !! d with
    | Some Dir =>
        let name := unique_name (fs w) (d +:+ "/tmp") suffix in
        Returns name (set_fs w (<[name := File []]> (fs w)))
    | _ => Raises (Exn FileNotFoundError d) w
    end.

(** [with tempfile.NamedTemporaryFile(..., delete=False) as tmpfile: body].
    Leaving the block closes the file and, with [delete=False], keeps it. *)
Definition with_NamedTemporaryFile {A} (d suffix : string)
    (body : string -> M A) : M A :=
  tmpfile <- create_named_temporary_file d suffix ;;
  try_finally (body tmpfile) (ret tt).

(** [tmpfile.write(data); tmpfile.flush(); tmpfile.close()] *)
Definition write_flush_close (name : string) (data : bytes) : M unit :=
  fun w =>
    match fs w !! name with
    | Some (File old) => Returns tt (set_fs w (<[name := File (old ++ data)]> (fs w)))
    | _ => Raises (Exn FileNotFoundError name) w
    end.

(** [os.remove(name)] *)
Definition os_remove (name : string) : M unit :=
  fun w =>
    match fs w !! name with
    | Some (File _) => Returns tt (set_fs w (delete name (fs w)))
    | Some Dir => Raises (Exn (OtherException "IsADirectoryError") name) w
    | None => Raises (Exn FileNotFoundError name) w
    end.

(* ===================================================================== *)
(** ** Parsers and documents *)
(* ===================================================================== *)

(** A parser of [DEFAULT_FILE_EXTRACTOR].  [parse_file] is given a path
    and reads the file system. *)
Record Parser := mkParser {
  class_name : string;                                          (* parser.__class__.__name__ *)
  init_parser : result unit;
  parse_file : gmap string fs_node -> string -> result (list string)
}.

(** [parser.parse_file(pathlib.Path(name))] *)
Definition call_parse_file (parser : Parser) (name : string) : M (list string) :=
  fun w => lift (parse_file parser (fs w) name) w.

(** [Document(text=..., doc_id=..., extra_info={...})] *)
Record Document := mkDocument {
  text : string;
  doc_id : string;
  extra_info : gmap string string
}.

Abbreviation blob_data_and_path := (GitBlobResponseModel.t * string)%type.

Section Synthesis.

Variable get_file_extension : string -> string.

(** [llama_index.readers.file.base.DEFAULT_FILE_EXTRACTOR] *)
Variable DEFAULT_FILE_EXTRACTOR : gmap string Parser.

(** [base64.b64decode] on a [str] *)
Variable b64decode : string -> result bytes.

(** [bytes.decode("utf-8")] *)
Variable decode_utf8 : bytes -> result string.

(** [utils.BufferedGitBlobDataIterator(blobs_and_paths, github_client,
    owner, repo, loop, buffer_size, verbose)]: the construction runs
    first and gives the finite sequence of the [__anext__] steps the
    [async for] loop will take; a step yields a pair or raises. *)
Variable BufferedGitBlobDataIterator :
  list blob_and_path -> BaseGithubClient -> string -> string -> Z -> bool ->
  M (list (M blob_data_and_path)).

(** [GithubRepositoryReader._parse_supported_file] *)
Definition _parse_supported_file (self : GithubRepositoryReader)
    (file_path : string) (file_content : bytes) (tree_sha tree_path : string)
    : M (option Document) :=
  let file_extension := get_file_extension file_path in
  match DEFAULT_FILE_EXTRACTOR !! file_extension with
  | Some parser =>
      lift (init_parser parser) ;;;
      with_TemporaryDirectory (fun tmpdirname =>
        with_NamedTemporaryFile tmpdirname ("." +:+ file_extension) (fun tmpfile =>
          write_flush_close tmpfile file_content ;;;
          parsed_file <-
            try_finally
              (try_except
                 (parsed_file <- call_parse_file parser tmpfile ;;
                  ret (Some (join_double_newline parsed_file)))
                 is_Exception
                 (fun e =>
                    logger_error ("Error while parsing " +:+ file_path +:+ " with "
                                  +:+ class_name parser +:+ ":" +:+ newline
                                  +:+ exn_msg e) ;;;
                    ret None))
              (os_remove tmpfile) ;;
          match parsed_file with
          | None => ret None
          | Some parsed_text =>
              ret (Some {| text := parsed_text;
                           doc_id := tree_sha;
                           extra_info := {[ "file_path" := file_path;
                                            "file_name" := tree_path ]} |})
          end))
  | None => ret None
  end.

(** The [async for blob_data, full_path in buffered_iterator] loop of
    [_generate_documents]; [documents] is the list built so far.  Each
    [continue] of the source is a recursive call on the remaining steps.
    After the first [try], [decoded_bytes] is never [None], so the
    [raise ValueError("decoded_bytes is None")] of the source has no
    counterpart. *)
Fixpoint generate_documents_loop (self : GithubRepositoryReader)
    (buffered_iterator : list (M blob_data_and_path))
    (documents : list Document) : M (list Document) :=
  match buffered_iterator with
  | [] => ret documents
  | anext :: rest =>
      item <- anext ;;
      let blob_data := item.1 in
      let full_path := item.2 in
      assert_ (GitBlobResponseModel.encoding blob_data =? "base64")%string
        ("blob encoding " +:+ GitBlobResponseModel.encoding blob_data
         +:+ " not supported") ;;;
      decoded <-
        try_except
          (decoded_bytes <- lift (b64decode (GitBlobResponseModel.content blob_data)) ;;
           ret (Some decoded_bytes))
          is_BinasciiError
          (fun _ => ret None) ;;
      match decoded with
      | None => generate_documents_loop self rest documents
      | Some decoded_bytes =>
          document <-
            (if _use_parser self then
               _parse_supported_file self full_path decoded_bytes
                 (GitBlobResponseModel.sha blob_data) full_path
             else ret None) ;;
          match document with
          | Some document => generate_documents_loop self rest (documents ++ [document])
          | None =>
              decoded_text <-
                try_except
                  (decoded_text <- lift (decode_utf8 decoded_bytes) ;;
                   ret (Some decoded_text))
                  is_UnicodeDecodeError
                  (fun _ => ret None) ;;
              match decoded_text with
              | None => generate_documents_loop self rest documents
              | Some decoded_text =>
                  generate_documents_loop self rest
                    (documents ++
                     [ {| text := decoded_text;
                          doc_id := GitBlobResponseModel.sha blob_data;
                          extra_info := {[ "file_path" := full_path;
                                           "file_name" := last_segment full_path ]} |} ])
              end
          end
      end
  end.

(** [GithubRepositoryReader._generate_documents] *)
Definition _generate_documents (self : GithubRepositoryReader)
    (blobs_and_paths : list blob_and_path) : M (list Document) :=
  buffered_iterator <-
    BufferedGitBlobDataIterator blobs_and_paths (_github_client self)
      (_owner self) (_repo self) (_concurrent_requests self) (_verbose self) ;;
  generate_documents_loop self buffered_iterator [].

(** [GithubRepositoryReader._load_data_from_commit] *)
Definition _load_data_from_commit (fuel : nat) (self : GithubRepositoryReader)
    (commit_sha : string) : M (list Document) :=
  tree_sha <- request (GetCommit (_owner self) (_repo self) commit_sha)
                (get_commit (_github_client self) (_owner self) (_repo self)
                   commit_sha) ;;
  blobs_and_paths <- _recurse_tree get_file_extension fuel self tree_sha "" 0 ;;
  _generate_documents self blobs_and_paths.

(** [GithubRepositoryReader._load_data_from_branch] *)
Definition _load_data_from_branch (fuel : nat) (self : GithubRepositoryReader)
    (branch : string) : M (list Document) :=
  tree_sha <- request (GetBranch (_owner self) (_repo self) branch)
                (get_branch (_github_client self) (_owner self) (_repo self)
                   branch) ;;
  blobs_and_paths <- _recurse_tree get_file_extension fuel self tree_sha "" 0 ;;
  _generate_documents self blobs_and_paths.

(** [GithubRepositoryReader.load_data] *)
Definition load_data (fuel : nat) (self : GithubRepositoryReader)
    (commit_sha branch : option string) : M (list Document) :=
  if bool_decide (commit_sha <> None) && bool_decide (branch <> None) then
    raise (Exn ValueError "You can only specify one of commit or branch.")
  else if bool_decide (commit_sha = None) && bool_decide (branch = None) then
    raise (Exn ValueError "You must specify one of commit or branch.")
  else
    match commit_sha with
    | Some commit_sha => _load_data_from_commit fuel self commit_sha
    | None =>
        match branch with
        | Some branch => _load_data_from_branch fuel self branch
        | None =>
            raise (Exn ValueError "You must specify one of commit or branch.")
        end
    end.

End Synthesis.

(* ===================================================================== *)
(** ** A small repository, a parser table and decoders for the examples *)
(* ===================================================================== *)

Module Demo.

(** Modelled from the spec: [utils.get_file_extension] is not among the
    sources.  Section 4.1: the extension is the substring after the final
    ".", empty if there is none. *)
Definition get_file_extension (filename : string) : string :=
  match split "." filename with
  | [] | [_] => EmptyString
  | parts => List.last parts EmptyString
  end.

(** Modelled from the spec: [utils.BufferedGitBlobDataIterator] is not
    among the sources.  Section 4.3: a limit below 1 fails with
    [InvalidConcurrency]; otherwise every reference yields its blob and
    its path.  Any completion order is allowed; this is submission
    order, one request per step. *)
Definition BufferedGitBlobDataIterator (blobs_and_paths : list blob_and_path)
    (github_client : BaseGithubClient) (owner repo : string)
    (buffer_size : Z) (verbose : bool) : M (list (M blob_data_and_path)) :=
  if buffer_size <? 1 then
    raise (Exn (OtherException "InvalidConcurrency") "buffer_size must be at least 1")
  else
    ret (map (fun bp : blob_and_path =>
                blob_data <- request (GetBlob owner repo (GitTreeObject.sha bp.1))
                               (get_blob github_client owner repo
                                  (GitTreeObject.sha bp.1)) ;;
                ret (blob_data, bp.2))
             blobs_and_paths).

Definition hi : bytes := [x68; x69]%byte.
Definition not_utf8 : bytes := [xff]%byte.

(** The value of a character of the base64 alphabet. *)
Definition b64_digit (c : ascii) : option nat :=
  let n := nat_of_ascii c in
  if ((65 <=? n) && (n <=? 90))%nat then Some (n - 65)%nat
  else if ((97 <=? n) && (n <=? 122))%nat then Some (n - 71)%nat
  else if ((48 <=? n) && (n <=? 57))%nat then Some (n + 4)%nat
  else if (n =? 43)%nat then Some 62%nat
  else if (n =? 47)%nat then Some 63%nat
  else None.

Definition byte_of_nat (n : nat) : Byte.byte := byte_of_ascii (ascii_of_nat n).

(** [binascii.a2b_base64] of CPython, not strict: characters outside the
    alphabet are dropped, and a complete run of padding ends the input.
    [quad_pos] counts the digits of the current group of four, [leftchar]
    holds the bits not yet written, [pads] the padding characters seen in
    a row. *)
Fixpoint a2b_base64 (s : string) (quad_pos leftchar pads : nat) (out : bytes)
    : result bytes :=
  match s with
  | EmptyString =>
      match quad_pos with
      | O => Ok out
      | S O =>
          Raise (Exn BinasciiError
                   ("Invalid base64-encoded string: number of data characters ("
                    +:+ pretty (length out / 3 * 4 + 1)%nat
                    +:+ ") cannot be 1 more than a multiple of 4"))
      | _ => Raise (Exn BinasciiError "Incorrect padding")
      end
  | String c s' =>
      if Ascii.eqb c "=" then
        if ((2 <=? quad_pos) && (4 <=? quad_pos + S pads))%nat then Ok out
        else a2b_base64 s' quad_pos leftchar
               (if (2 <=? quad_pos)%nat then S pads else pads) out
      else
        match b64_digit c with
        | None => a2b_base64 s' quad_pos leftchar pads out
        | Some d =>
            match quad_pos with
            | O => a2b_base64 s' 1 d 0 out
            | S O =>
                a2b_base64 s' 2 (d mod 16)%nat 0
                  (out ++ [byte_of_nat (leftchar * 4 + d / 16)%nat])
            | S (S O) =>
                a2b_base64 s' 3 (d mod 4)%nat 0
                  (out ++ [byte_of_nat (leftchar * 16 + d / 4)%nat])
            | _ =>
                a2b_base64 s' 0 0 0 (out ++ [byte_of_nat (leftchar * 64 + d)%nat])
            end
        end
  end.

(** [base64.b64decode(s)] of CPython for a [str], without [altchars] and
    with [validate=False]: a character outside ASCII is a [ValueError],
    then [binascii.a2b_base64]. *)
Definition b64decode (s : string) : result bytes :=
  if existsb (fun c => (128 <=? nat_of_ascii c)%nat) (list_ascii_of_string s)
  then Raise (Exn ValueError "string argument should contain only ASCII characters")
  else a2b_base64 s 0 0 0 [].

Definition within (lo hi : nat) (b : Byte.byte) : bool :=
  ((lo <=? Byte.to_nat b) && (Byte.to_nat b <=? hi))%nat.

Definition unicode_decode_error (reason : string) : exn :=
  Exn UnicodeDecodeError reason.

(** The well-formed byte sequences of UTF-8 (one to four bytes, no overlong
    form, no surrogate, nothing above U+10FFFF).  [None] when [b] is
    well-formed, else the reason Python gives for the first bad byte. *)
Fixpoint utf8_error (b : bytes) : option string :=
  match b with
  | [] => None
  | b0 :: r0 =>
      if within 0 127 b0 then utf8_error r0
      else if within 194 223 b0 then
        match r0 with
        | [] => Some "unexpected end of data"
        | b1 :: r1 =>
            if within 128 191 b1 then utf8_error r1
            else Some "invalid continuation byte"
        end
      else if within 224 239 b0 then
        match r0 with
        | [] => Some "unexpected end of data"
        | b1 :: r1 =>
            if within (if within 224 224 b0 then 160 else 128)
                      (if within 237 237 b0 then 159 else 191) b1
            then match r1 with
                 | [] => Some "unexpected end of data"
                 | b2 :: r2 =>
                     if within 128 191 b2 then utf8_error r2
                     else Some "invalid continuation byte"
                 end
            else Some "invalid continuation byte"
        end
      else if within 240 244 b0 then
        match r0 with
        | [] => Some "unexpected end of data"
        | b1 :: r1 =>
            if within (if within 240 240 b0 then 144 else 128)
                      (if within 244 244 b0 then 143 else 191) b1
            then match r1 with
                 | [] => Some "unexpected end of data"
                 | b2 :: r2 =>
                     if within 128 191 b2
                     then match r2 with
                          | [] => Some "unexpected end of data"
                          | b3 :: r3 =>
                              if within 128 191 b3 then utf8_error r3
                              else Some "invalid continuation byte"
                          end
                     else Some "invalid continuation byte"
                 end
            else Some "invalid continuation byte"
        end
      else Some "invalid start byte"
  end.

(** [bytes.decode("utf-8")].  The text is kept as its UTF-8 bytes; of the
    message of a [UnicodeDecodeError] only the reason is kept. *)
Definition decode_utf8 (b : bytes) : result string :=
  match utf8_error b with
  | None => Ok (string_of_list_byte b)
  | Some reason => Raise (unicode_decode_error reason)
  end.

(** A parser that returns the two halves of a fixed text for every file
    it can read, and one that always fails. *)
Definition md_parser : Parser :=
  {| class_name := "MarkdownParser";
     init_parser := Ok tt;
     parse_file := fun f name =>
       match f !! name with
       | Some (File _) => Ok ["title"; "body"]
       | _ => Raise (Exn FileNotFoundError name)
       end |}.

Definition failing_parser : Parser :=
  {| class_name := "PDFParser";
     init_parser := Ok tt;
     parse_file := fun _ _ => Raise (Exn (OtherException "ParseError") "broken file") |}.

Definition DEFAULT_FILE_EXTRACTOR : gmap string Parser :=
  {[ "md" := md_parser; "pdf" := failing_parser ]}.

Definition api_error (what : string) : exn :=
  Exn (OtherException "ApiError") what.

Definition obj (path type sha : string) : GitTreeObject.t :=
  GitTreeObject.mk path type sha.

(** The repository: a.md, b.png and docs/readme.md. *)
Definition client : BaseGithubClient :=
  {| get_commit := fun _ _ commit_sha =>
       if (commit_sha =? "c0")%string then Ok "t0" else Raise (api_error commit_sha);
     get_branch := fun _ _ branch =>
       if (branch =? "main")%string then Ok "t0" else Raise (api_error branch);
     get_tree := fun _ _ tree_sha =>
       if (tree_sha =? "t0")%string then
         Ok (GitTreeResponseModel.mk "t0"
               [obj "a.md" "blob" "b1"; obj "docs" "tree" "t1"; obj "b.png" "blob" "b2"])
       else if (tree_sha =? "t1")%string then
         Ok (GitTreeResponseModel.mk "t1" [obj "readme.md" "blob" "b3"])
       else Raise (api_error tree_sha);
     get_blob := fun _ _ blob_sha =>
       if (blob_sha =? "b2")%string then Ok (GitBlobResponseModel.mk "/w==" "base64" "b2")
       else Ok (GitBlobResponseModel.mk "aGk=" "base64" blob_sha) |}.

(** A client whose root tree holds the single blob b.png. *)
Definition one_blob_client : BaseGithubClient :=
  {| get_commit := fun _ _ _ => Ok "t0";
     get_branch := fun _ _ _ => Ok "t0";
     get_tree := fun _ _ _ =>
       Ok (GitTreeResponseModel.mk "t0" [obj "b.png" "blob" "b2"]);
     get_blob := fun _ _ blob_sha =>
       Ok (GitBlobResponseModel.mk "aGk=" "base64" blob_sha) |}.

Definition reader (c : BaseGithubClient) (use_parser : bool)
    (concurrent_requests : Z)
    (filter_directories filter_file_extensions : option (list string * FilterType))
    : GithubRepositoryReader :=
  mkReader "owner" "repo" use_parser false concurrent_requests
    filter_directories filter_file_extensions c.

Definition w0 : World := {| fs := ∅; calls := []; logged := [] |}.

End Demo.

(* ===================================================================== *)
(** ** Vocabulary of the statements *)
(* ===================================================================== *)

(** [c] occurs in [s]. *)
Definition has_char (c : ascii) (s : string) : Prop :=
  In c (list_ascii_of_string s).

(** The reader with another extension filter. *)
Definition with_filter_file_extensions (self : GithubRepositoryReader)
    (filter_file_extensions : option (list string * FilterType))
    : GithubRepositoryReader :=
  {| _owner := _owner self;
     _repo := _repo self;
     _use_parser := _use_parser self;
     _verbose := _verbose self;
     _concurrent_requests := _concurrent_requests self;
     _filter_directories := _filter_directories self;
     _filter_file_extensions := filter_file_extensions;
     _github_client := _github_client self |}.

(** An extension filter that rejects nothing. *)
Definition admit_all : list string * FilterType := ([], EXCLUDE).

(** What [_check_filter_file_extensions] answers under the filter [spec]. *)
Definition extension_admits (get_file_extension : string -> string)
    (spec : list string * FilterType) (tree_obj_path : string) : bool :=
  match spec.2 with
  | EXCLUDE => negb (str_in (get_file_extension tree_obj_path) spec.1)
  | INCLUDE => str_in (get_file_extension tree_obj_path) spec.1
  end.

(** The client answers the request for [tree_sha] and for every tree below
    it, and the trees are at most [depth] levels deep. *)
Fixpoint tree_resolves (self : GithubRepositoryReader) (depth : nat)
    (tree_sha : string) : bool :=
  match depth with
  | O => false
  | S depth' =>
      match get_tree (_github_client self) (_owner self) (_repo self) tree_sha with
      | Ok tree_data =>
          forallb (fun tree_obj =>
                     if (GitTreeObject.type tree_obj =? "tree")%string
                     then tree_resolves self depth' (GitTreeObject.sha tree_obj)
                     else true)
                  (GitTreeResponseModel.tree tree_data)
      | Raise _ => false
      end
  end.

(** What [_check_filter_directories] answers under the filter [spec]. *)
Definition directory_admits (spec : list string * FilterType)
    (tree_obj_path : string) : bool :=
  match spec.2 with
  | EXCLUDE => negb (any_prefix_related tree_obj_path spec.1)
  | INCLUDE => any_prefix_related tree_obj_path spec.1
  end.

(** The world after the requests [requests], sent in this order. *)
Definition add_calls (w : World) (requests : list api_call) : World :=
  {| fs := fs w; calls := calls w ++ requests; logged := logged w |}.

(** The walk as the two filters describe it, without loop, accumulator or
    world.  A subdirectory child contributes the blobs of its tree when the
    directory filter admits its path and nothing otherwise; a blob child
    contributes itself when the extension filter admits its path; any
    other child contributes nothing.  [sub_blobs] gives the blobs of a
    subtree. *)
Definition child_blobs (get_file_extension : string -> string)
    (dir_spec ext_spec : list string * FilterType)
    (sub_blobs : string -> string -> list blob_and_path)
    (current_path : string) (tree_obj : GitTreeObject.t) : list blob_and_path :=
  let file_path := os_path_join current_path (GitTreeObject.path tree_obj) in
  if (GitTreeObject.type tree_obj =? "tree")%string then
    if directory_admits dir_spec file_path
    then sub_blobs (GitTreeObject.sha tree_obj) file_path
    else []
  else if (GitTreeObject.type tree_obj =? "blob")%string then
    if extension_admits get_file_extension ext_spec file_path
    then [(tree_obj, file_path)]
    else []
  else [].

(** The blobs expected of the walk of the tree [tree_sha] at [current_path]:
    those of its children, in the order of the tree. *)
Fixpoint expected_blobs (get_file_extension : string -> string)
    (self : GithubRepositoryReader) (dir_spec ext_spec : list string * FilterType)
    (depth : nat) (tree_sha current_path : string) : list blob_and_path :=
  match depth with
  | O => []
  | S depth' =>
      match get_tree (_github_client self) (_owner self) (_repo self) tree_sha with
      | Ok tree_data =>
          flat_map
            (child_blobs get_file_extension dir_spec ext_spec
               (expected_blobs get_file_extension self dir_spec ext_spec depth')
               current_path)
            (GitTreeResponseModel.tree tree_data)
      | Raise _ => []
      end
  end.

(** The requests a subdirectory child causes: those of its tree when the
    directory filter admits its path, none otherwise; other children cause
    none.  [sub_requests] gives the requests of a subtree. *)
Definition child_requests (dir_spec : list string * FilterType)
    (sub_requests : string -> string -> list api_call)
    (current_path : string) (tree_obj : GitTreeObject.t) : list api_call :=
  let file_path := os_path_join current_path (GitTreeObject.path tree_obj) in
  if (GitTreeObject.type tree_obj =? "tree")%string
     && directory_admits dir_spec file_path
  then sub_requests (GitTreeObject.sha tree_obj) file_path
  else [].

(** The requests expected of the walk of the tree [tree_sha]: the one for
    the tree itself, then those of its children, in the order of the tree. *)
Fixpoint expected_requests (self : GithubRepositoryReader)
    (dir_spec : list string * FilterType)
    (depth : nat) (tree_sha current_path : string) : list api_call :=
  match depth with
  | O => []
  | S depth' =>
      GetTree (_owner self) (_repo self) tree_sha ::
      match get_tree (_github_client self) (_owner self) (_repo self) tree_sha with
      | Ok tree_data =>
          flat_map
            (child_requests dir_spec (expected_requests self dir_spec depth')
               current_path)
            (GitTreeResponseModel.tree tree_data)
      | Raise _ => []
      end
  end.

(** An outcome of the walk that is a result or the [TypeError] of
    unpacking [None]. *)
Definition returns_or_unpack_None {A} (o : outcome A) : Prop :=
  (exists a w, o = Returns a w) \/ (exists w, o = Raises unpack_None w).

(** The recursive call on every subdirectory of [tree_objs] gives a result
    or that [TypeError]. *)
Definition subtrees_ok (recurse : string -> string -> Z -> M (list blob_and_path))
    (tree_objs : list GitTreeObject.t) : Prop :=
  Forall (fun tree_obj =>
            GitTreeObject.type tree_obj = "tree" ->
            forall p d w,
              returns_or_unpack_None (recurse (GitTreeObject.sha tree_obj) p d w))
         tree_objs.

(** The names [_parse_supported_file] gives its temporary directory and
    file when it starts on the file system [f], and the file system the
    parser is called on. *)
Definition tmpdir_name (f : gmap string fs_node) : string :=
  unique_name f "/tmp/tmp" "".

Definition tmpfile_name (f : gmap string fs_node) (file_extension : string) : string :=
  unique_name (<[tmpdir_name f := Dir]> f) (tmpdir_name f +:+ "/tmp")
    ("." +:+ file_extension).

Definition fs_at_parse (f : gmap string fs_node) (file_extension : string)
    (file_content : bytes) : gmap string fs_node :=
  <[tmpfile_name f file_extension := File file_content]> (<[tmpdir_name f := Dir]> f).

(** The world after [logger.error(msg)]. *)
Definition log_error (w : World) (msg : string) : World :=
  {| fs := fs w; calls := calls w; logged := logged w ++ [msg] |}.

(** The world after the request [c]. *)
Definition log_call (w : World) (c : api_call) : World :=
  {| fs := fs w; calls := calls w ++ [c]; logged := logged w |}.

(** The message [_parse_supported_file] logs when the parser fails. *)
Definition parse_error_message (file_path : string) (parser : Parser) (e : exn)
    : string :=
  "Error while parsing " +:+ file_path +:+ " with " +:+ class_name parser
  +:+ ":" +:+ newline +:+ exn_msg e.

(** The document of the parser path and of the raw-text path. *)
Definition parsed_document (parsed_file : list string) (sha full_path : string)
    : Document :=
  {| text := join_double_newline parsed_file;
     doc_id := sha;
     extra_info := {[ "file_path" := full_path; "file_name" := full_path ]} |}.

Definition raw_text_document (decoded_text sha full_path : string) : Document :=
  {| text := decoded_text;
     doc_id := sha;
     extra_info := {[ "file_path" := full_path;
                      "file_name" := last_segment full_path ]} |}.

(** One of [p] and [d] is the other followed by more characters (or by
    none): the relation the directory filter tests. *)
Definition prefix_related (p d : string) : Prop :=
  (exists t, p = d +:+ t) \/ (exists t, d = p +:+ t).

(** The child is neither a subdirectory nor a blob (a submodule, say). *)
Definition other_type (tree_obj : GitTreeObject.t) : Prop :=
  GitTreeObject.type tree_obj <> "tree" /\ GitTreeObject.type tree_obj <> "blob".

(** A request for a tree of the repository [owner]/[repo]. *)
Definition is_GetTree (owner repo : string) (c : api_call) : Prop :=
  exists tree_sha, c = GetTree owner repo tree_sha.

(** The blob children of [tree_objs] the extension filter [spec] admits,
    each with its path below [current_path], in the order of the tree. *)
Definition admitted_blobs (get_file_extension : string -> string)
    (spec : list string * FilterType) (current_path : string)
    (tree_objs : list GitTreeObject.t) : list blob_and_path :=
  map (fun tree_obj =>
         (tree_obj, os_path_join current_path (GitTreeObject.path tree_obj)))
      (List.filter
         (fun tree_obj =>
            (GitTreeObject.type tree_obj =? "blob")%string
            && extension_admits get_file_extension spec
                 (os_path_join current_path (GitTreeObject.path tree_obj)))
         tree_objs).

(** The outcome [o] of a walk started in [w]: the final world is related
    to [w] by [T], and every returned pair satisfies [G]. *)
Definition respects (T : World -> World -> Prop) (G : blob_and_path -> Prop)
    (w : World) (o : outcome (list blob_and_path)) : Prop :=
  match o with
  | Returns l w' => T w w' /\ Forall G l
  | Raises _ w' => T w w'
  | Diverges => True
  end.

(** What a walk may do to the world: nothing to the file system and to the
    error log, and tree requests added to the call log. *)
Definition only_tree_requests (owner repo : string) (w w' : World) : Prop :=
  fs w' = fs w
  /\ logged w' = logged w
  /\ exists requests,
       calls w' = (calls w ++ requests)%list /\ Forall (is_GetTree owner repo) requests.

(** The step of an iterator leaves the file system alone. *)
Definition keeps_fs {A} (m : M A) : Prop :=
  forall w w', final_world (m w) = Some w' -> fs w' = fs w.

(** The iterator leaves the file system alone, when it is built and at
    each of its steps. *)
Definition iterator_keeps_fs
    (iterator : list blob_and_path -> BaseGithubClient -> string -> string -> Z ->
                bool -> M (list (M blob_data_and_path))) : Prop :=
  forall blobs_and_paths github_client owner repo buffer_size verbose,
    keeps_fs (iterator blobs_and_paths github_client owner repo buffer_size verbose)
    /\ forall w steps w1,
         iterator blobs_and_paths github_client owner repo buffer_size verbose w
         = Returns steps w1 ->
         Forall keeps_fs steps.

(* ===================================================================== *)
(** ** Strings *)
(* ===================================================================== *)

Lemma split_not_nil (sep : ascii) (s : string) : split sep s <> [].
Proof.
  destruct s as [|c s]; cbn; [discriminate |].
  destruct (Ascii.eqb c sep); [discriminate |].
  destruct (split sep s); discriminate.
Qed.

Lemma split_concat (sep : ascii) (s : string) :
  String.concat (String sep EmptyString) (split sep s) = s.
Proof.
  induction s as [|c s IH]; [reflexivity |].
  cbn [split]. pose proof (split_not_nil sep s) as Hne.
  destruct (Ascii.eqb c sep) eqn:E.
  - apply Ascii.eqb_eq in E as ->.
    destruct (split sep s) as [|hd tl]; [contradiction |].
    cbn [String.concat]. cbn [String.concat] in IH. now rewrite IH.
  - destruct (split sep s) as [|hd tl]; [contradiction |].
    cbn [String.concat] in *. destruct tl; [now rewrite IH |].
    change (String c hd +:+ ?x) with (String c (hd +:+ x)). now rewrite IH.
Qed.

Lemma split_segments_no_sep (sep : ascii) (s : string) :
  Forall (fun segment => ~ has_char sep segment) (split sep s).
Proof.
  induction s as [|c s IH]; cbn [split].
  - constructor; [intros [] | constructor].
  - destruct (Ascii.eqb c sep) eqn:E.
    + constructor; [intros [] | exact IH].
    + apply Ascii.eqb_neq in E.
      destruct (split sep s) as [|hd tl].
      * constructor; [|constructor]. intros [H|[]]. congruence.
      * apply Forall_cons in IH as [Hhd Htl]. constructor; [|exact Htl].
        intros [H|H]; [congruence | now apply Hhd].
Qed.

Lemma string_append_assoc (a b c : string) : (a +:+ b) +:+ c = a +:+ b +:+ c.
Proof.
  induction a as [|x a IH]; [reflexivity |].
  change (String x (a +:+ b) +:+ c = String x (a +:+ b +:+ c)).
  change (String x ((a +:+ b) +:+ c) = String x (a +:+ b +:+ c)). now rewrite IH.
Qed.

Lemma concat_last (sep : string) (l : list string) (x : string) :
  l <> [] ->
  String.concat sep (l ++ [x]) = String.concat sep l +:+ sep +:+ x.
Proof.
  induction l as [|y l IH]; intros Hne; [contradiction |].
  destruct l as [|z l]; [reflexivity |].
  change (String.concat sep ((y :: z :: l) ++ [x]))
    with (y +:+ sep +:+ String.concat sep ((z :: l) ++ [x])).
  rewrite IH by discriminate.
  change (String.concat sep (y :: z :: l)) with (y +:+ sep +:+ String.concat sep (z :: l)).
  now rewrite !string_append_assoc.
Qed.

(** [full_path.split("/")[-1]] has no "/" and ends [full_path], after a "/"
    when anything comes before it. *)
Lemma last_segment_spec (full_path : string) :
  ~ has_char "/" (last_segment full_path)
  /\ (full_path = last_segment full_path
      \/ exists dir, full_path = dir +:+ "/" +:+ last_segment full_path).
Proof.
  unfold last_segment.
  pose proof (split_not_nil "/" full_path) as Hne.
  pose proof (split_concat "/" full_path) as Hcat.
  pose proof (split_segments_no_sep "/" full_path) as Hseg.
  destruct (exists_last Hne) as (init & x & Heq). rewrite Heq in *.
  rewrite last_last. split.
  - apply Forall_app in Hseg as [_ Hx]. now apply Forall_cons in Hx as [Hx _].
  - destruct init as [|y init]; [left; now rewrite <- Hcat |].
    right. exists (String.concat "/" (y :: init)).
    now rewrite <- Hcat, concat_last by discriminate.
Qed.

(* ===================================================================== *)
(** ** Filter engine *)
(* ===================================================================== *)

Lemma check_filter_directories_include (self : GithubRepositoryReader)
    (dirs : list string) (p : string) :
  _filter_directories self = Some (dirs, INCLUDE) ->
  _check_filter_directories self p = Ok (any_prefix_related p dirs).
Proof. intros H. unfold _check_filter_directories. now rewrite H. Qed.

(** C5, as the spec states it, fails: under INCLUDE with the directory list
    ["docs"], the path "doc" is admitted, because "docs" starts with "doc". *)
Lemma include_docs_admits_doc :
  ~ (_check_filter_directories
       (Demo.reader Demo.client true 5 (Some (["docs"], INCLUDE)) None)
       "docs/readme.md" = Ok true
     /\ _check_filter_directories
       (Demo.reader Demo.client true 5 (Some (["docs"], INCLUDE)) None)
       "src/main.go" = Ok false
     /\ _check_filter_directories
       (Demo.reader Demo.client true 5 (Some (["docs"], INCLUDE)) None)
       "doc" = Ok false).
Proof. intros (_ & _ & H). vm_compute in H. discriminate H. Qed.

(** C5, amended: under directory filtering in INCLUDE mode with the list
    ["docs"], "docs/readme.md" is admitted, "src/main.go" is not, and "doc"
    is admitted (the test is a prefix test on strings, in both directions). *)
Theorem include_docs_examples (self : GithubRepositoryReader) :
  _filter_directories self = Some (["docs"], INCLUDE) ->
  _check_filter_directories self "docs/readme.md" = Ok true
  /\ _check_filter_directories self "src/main.go" = Ok false
  /\ _check_filter_directories self "doc" = Ok true.
Proof.
  intros H. rewrite !(check_filter_directories_include self ["docs"]) by exact H.
  repeat split; reflexivity.
Qed.

Lemma include_docs_examples_witness :
  _filter_directories (Demo.reader Demo.client true 5 (Some (["docs"], INCLUDE)) None)
    = Some (["docs"], INCLUDE)
  /\ _check_filter_directories
       (Demo.reader Demo.client true 5 (Some (["docs"], INCLUDE)) None) "doc" = Ok true.
Proof.
  split; [reflexivity |].
  apply (include_docs_examples
           (Demo.reader Demo.client true 5 (Some (["docs"], INCLUDE)) None)).
  reflexivity.
Defined.

(** The sibling of the walk's two checks: without filters [_allow_tree_obj]
    admits every path. *)
Lemma allow_tree_obj_no_filters (gfe : string -> string)
    (self : GithubRepositoryReader) (p : string) :
  _filter_directories self = None ->
  _filter_file_extensions self = None ->
  _allow_tree_obj gfe self p = Ok true.
Proof. intros Hd He. unfold _allow_tree_obj. now rewrite Hd, He. Qed.

(** With a directory filter, [_allow_tree_obj] never looks at the extension
    filter. *)
Lemma allow_tree_obj_directories_first (gfe : string -> string)
    (self : GithubRepositoryReader) (spec : list string * FilterType) (p : string) :
  _filter_directories self = Some spec ->
  _allow_tree_obj gfe self p = _check_filter_directories self p.
Proof. intros Hd. unfold _allow_tree_obj. now rewrite Hd. Qed.

(* ===================================================================== *)
(** ** Tree walker *)
(* ===================================================================== *)

Section WalkProperties.

Variable get_file_extension : string -> string.

Lemma check_filter_file_extensions_spec (self : GithubRepositoryReader)
    (spec : list string * FilterType) (p : string) :
  _filter_file_extensions self = Some spec ->
  _check_filter_file_extensions get_file_extension self p
  = Ok (extension_admits get_file_extension spec p).
Proof.
  intros H. unfold _check_filter_file_extensions, extension_admits.
  rewrite H. destruct spec as [exts []]; reflexivity.
Qed.

Lemma check_filter_file_extensions_admit_all (self : GithubRepositoryReader)
    (p : string) :
  _check_filter_file_extensions get_file_extension
    (with_filter_file_extensions self (Some admit_all)) p = Ok true.
Proof. reflexivity. Qed.

(** The checks never fail with anything but the [TypeError] of unpacking
    [None]. *)
Lemma check_filter_directories_cases (self : GithubRepositoryReader) (p : string) :
  (exists b, _check_filter_directories self p = Ok b)
  \/ (_filter_directories self = None
      /\ _check_filter_directories self p = Raise unpack_None).
Proof.
  unfold _check_filter_directories.
  destruct (_filter_directories self) as [[dirs []]|]; eauto.
Qed.

Lemma check_filter_file_extensions_cases (self : GithubRepositoryReader)
    (p : string) :
  (exists b, _check_filter_file_extensions get_file_extension self p = Ok b)
  \/ (_filter_file_extensions self = None
      /\ _check_filter_file_extensions get_file_extension self p
         = Raise unpack_None).
Proof.
  unfold _check_filter_file_extensions.
  destruct (_filter_file_extensions self) as [[exts []]|]; eauto.
Qed.

(** One step of the loop of [_recurse_tree], by the kind of the child. *)
Lemma recurse_tree_loop_cons recurse self cp cd tree_obj rest acc :
  recurse_tree_loop get_file_extension recurse self cp cd (tree_obj :: rest) acc
  = let file_path := os_path_join cp (GitTreeObject.path tree_obj) in
    if (GitTreeObject.type tree_obj =? "tree")%string then
      allowed <- lift (_check_filter_directories self file_path) ;;
      if negb allowed then
        recurse_tree_loop get_file_extension recurse self cp cd rest acc
      else
        sub <- recurse (GitTreeObject.sha tree_obj) file_path (cd + 1) ;;
        recurse_tree_loop get_file_extension recurse self cp cd rest (acc ++ sub)
    else if (GitTreeObject.type tree_obj =? "blob")%string then
      allowed <- lift (_check_filter_file_extensions get_file_extension self file_path) ;;
      if negb allowed then
        recurse_tree_loop get_file_extension recurse self cp cd rest acc
      else
        recurse_tree_loop get_file_extension recurse self cp cd rest
          (acc ++ [(tree_obj, file_path)])
    else
      recurse_tree_loop get_file_extension recurse self cp cd rest acc.
Proof. reflexivity. Qed.

Section ExtensionFilter.

Variable self : GithubRepositoryReader.
Variable spec : list string * FilterType.
Hypothesis Hspec : _filter_file_extensions self = Some spec.

Let keep (l : list blob_and_path) : list blob_and_path :=
  List.filter (fun bp => extension_admits get_file_extension spec bp.2) l.

Let self_all := with_filter_file_extensions self (Some admit_all).

Lemma recurse_tree_loop_extension_filter
    (rec_spec rec_all : string -> string -> Z -> M (list blob_and_path)) :
  (forall sha p d w, rec_spec sha p d w = outcome_map keep (rec_all sha p d w)) ->
  forall cp cd tree_objs acc w,
    recurse_tree_loop get_file_extension rec_spec self cp cd tree_objs (keep acc) w
    = outcome_map keep
        (recurse_tree_loop get_file_extension rec_all self_all cp cd tree_objs acc w).
Proof.
  intros Hrec cp cd tree_objs.
  induction tree_objs as [|tree_obj rest IH]; intros acc w; [reflexivity |].
  rewrite !recurse_tree_loop_cons. cbv zeta.
  destruct (GitTreeObject.type tree_obj =? "tree")%string.
  - change (_check_filter_directories self_all) with (_check_filter_directories self).
    unfold bind at 1 3.
    destruct (_check_filter_directories self _) as [allowed|e]; cbn [lift ret raise];
      [|reflexivity].
    destruct allowed; cbn [negb]; [|apply IH].
    unfold bind. rewrite Hrec.
    destruct (rec_all _ _ _ w) as [sub w'| |]; cbn [outcome_map]; try reflexivity.
    rewrite <- IH. unfold keep. now rewrite List.filter_app.
  - destruct (GitTreeObject.type tree_obj =? "blob")%string; [|apply IH].
    rewrite (check_filter_file_extensions_spec self spec) by exact Hspec.
    unfold self_all at 1. rewrite check_filter_file_extensions_admit_all.
    unfold bind, lift, ret. cbn [negb].
    rewrite <- IH.
    assert (Hkeep : forall x : blob_and_path,
               keep (acc ++ [x])%list
               = (keep acc ++ (if extension_admits get_file_extension spec x.2
                               then [x] else []))%list).
    { intros x. unfold keep. rewrite List.filter_app. cbn [List.filter].
      now destruct (extension_admits get_file_extension spec x.2). }
    rewrite Hkeep. cbn [snd].
    destruct (extension_admits get_file_extension spec _); cbn [negb].
    + reflexivity.
    + now rewrite app_nil_r.
Qed.

Lemma recurse_tree_extension_filter fuel :
  forall tree_sha cp cd w,
    _recurse_tree get_file_extension fuel self tree_sha cp cd w
    = outcome_map keep
        (_recurse_tree get_file_extension fuel self_all tree_sha cp cd w).
Proof.
  induction fuel as [|fuel IH]; intros tree_sha cp cd w; [reflexivity |].
  cbn [_recurse_tree]. unfold bind at 1 2.
  change (_owner self_all) with (_owner self).
  change (_repo self_all) with (_repo self).
  change (_github_client self_all) with (_github_client self).
  destruct (request _ _ w) as [tree_data w'| |]; try reflexivity.
  apply (recurse_tree_loop_extension_filter _ _ IH cp cd _ []).
Qed.

End ExtensionFilter.

Section MissingFilter.

Variable self : GithubRepositoryReader.
Variable recurse : string -> string -> Z -> M (list blob_and_path).

(** Without a directory filter the loop stops at the first
    subdirectory or earlier, before any recursive call. *)
Lemma recurse_tree_loop_no_directory_filter cp cd tree_objs :
  _filter_directories self = None ->
  (exists tree_obj, In tree_obj tree_objs
                    /\ GitTreeObject.type tree_obj = "tree") ->
  forall acc w,
    recurse_tree_loop get_file_extension recurse self cp cd tree_objs acc w
    = Raises unpack_None w.
Proof.
  intros Hnone.
  induction tree_objs as [|tree_obj rest IH]; intros (t & Hin & Ht) acc w.
  - destruct Hin.
  - rewrite recurse_tree_loop_cons. cbv zeta.
    destruct (GitTreeObject.type tree_obj =? "tree")%string eqn:Etree.
    + unfold _check_filter_directories. rewrite Hnone. reflexivity.
    + assert (Hrest : exists t', In t' rest /\ GitTreeObject.type t' = "tree").
      { destruct Hin as [->|Hin]; [|eauto].
        rewrite Ht in Etree. discriminate Etree. }
      destruct (GitTreeObject.type tree_obj =? "blob")%string; [|now apply IH].
      destruct (check_filter_file_extensions_cases self
                  (os_path_join cp (GitTreeObject.path tree_obj)))
        as [[b ->]|[_ ->]]; [|reflexivity].
      unfold bind, lift, ret. destruct b; cbn [negb]; now apply IH.
Qed.

Lemma recurse_tree_loop_returns_or_unpack_None cp cd tree_objs :
  subtrees_ok recurse tree_objs ->
  forall acc w,
    returns_or_unpack_None
      (recurse_tree_loop get_file_extension recurse self cp cd tree_objs acc w).
Proof.
  induction tree_objs as [|tree_obj rest IH]; intros Hsub acc w.
  - left. now exists acc, w.
  - apply Forall_cons in Hsub as [Hobj Hrest].
    rewrite recurse_tree_loop_cons. cbv zeta.
    destruct (GitTreeObject.type tree_obj =? "tree")%string eqn:Etree.
    + apply String.eqb_eq in Etree.
      destruct (check_filter_directories_cases self
                  (os_path_join cp (GitTreeObject.path tree_obj)))
        as [[b ->]|[_ ->]]; [|right; now exists w].
      unfold bind at 1. unfold lift, ret.
      destruct b; cbn [negb]; [|now apply IH].
      unfold bind.
      destruct (Hobj Etree (os_path_join cp (GitTreeObject.path tree_obj))
                  (cd + 1) w)
        as [(sub & w' & ->)|(w' & ->)]; [now apply IH | right; now exists w'].
    + destruct (GitTreeObject.type tree_obj =? "blob")%string; [|now apply IH].
      destruct (check_filter_file_extensions_cases self
                  (os_path_join cp (GitTreeObject.path tree_obj)))
        as [[b ->]|[_ ->]]; [|right; now exists w].
      unfold bind, lift, ret. destruct b; cbn [negb]; now apply IH.
Qed.

(** Without an extension filter the loop does not get past a blob. *)
Lemma recurse_tree_loop_no_extension_filter cp cd tree_objs :
  _filter_file_extensions self = None ->
  subtrees_ok recurse tree_objs ->
  (exists tree_obj, In tree_obj tree_objs
                    /\ GitTreeObject.type tree_obj = "blob") ->
  forall acc w,
    exists w',
      recurse_tree_loop get_file_extension recurse self cp cd tree_objs acc w
      = Raises unpack_None w'.
Proof.
  intros Hnone.
  induction tree_objs as [|tree_obj rest IH];
    intros Hsub (t & Hin & Ht) acc w.
  - destruct Hin.
  - apply Forall_cons in Hsub as [Hobj Hrest].
    rewrite recurse_tree_loop_cons. cbv zeta.
    destruct (GitTreeObject.type tree_obj =? "tree")%string eqn:Etree.
    + assert (Hblob : exists t', In t' rest /\ GitTreeObject.type t' = "blob").
      { destruct Hin as [->|Hin]; [|eauto].
        rewrite Ht in Etree. discriminate Etree. }
      apply String.eqb_eq in Etree.
      destruct (check_filter_directories_cases self
                  (os_path_join cp (GitTreeObject.path tree_obj)))
        as [[b ->]|[_ ->]]; [|now exists w].
      unfold bind at 1. unfold lift, ret.
      destruct b; cbn [negb]; [|now apply IH].
      unfold bind.
      destruct (Hobj Etree (os_path_join cp (GitTreeObject.path tree_obj))
                  (cd + 1) w)
        as [(sub & w' & ->)|(w' & ->)]; [now apply IH | now exists w'].
    + destruct (GitTreeObject.type tree_obj =? "blob")%string eqn:Eblob.
      * unfold _check_filter_file_extensions. rewrite Hnone. now exists w.
      * apply IH; [exact Hrest |]. destruct Hin as [->|Hin]; [|eauto].
        rewrite Ht in Eblob. discriminate Eblob.
Qed.

End MissingFilter.

(** When the client serves the whole tree within the fuel, the walk ends
    with a result or with the [TypeError] of a missing filter: never with
    another error, and not out of fuel. *)
Lemma recurse_tree_returns_or_unpack_None (self : GithubRepositoryReader) fuel :
  forall tree_sha cp cd w,
    tree_resolves self fuel tree_sha = true ->
    returns_or_unpack_None
      (_recurse_tree get_file_extension fuel self tree_sha cp cd w).
Proof.
  induction fuel as [|fuel IH]; intros tree_sha cp cd w Hres; [discriminate Hres |].
  cbn [tree_resolves] in Hres. cbn [_recurse_tree]. unfold bind, request.
  destruct (get_tree _ _ _ tree_sha) as [tree_data|e]; [|discriminate Hres].
  cbn [lift ret].
  apply recurse_tree_loop_returns_or_unpack_None.
  apply Forall_forall. intros tree_obj Hin Htree p d w'.
  apply IH. rewrite forallb_forall in Hres. specialize (Hres tree_obj).
  rewrite Htree in Hres. apply Hres. now apply list_elem_of_In.
Qed.

Lemma tree_resolves_subtrees_ok (self : GithubRepositoryReader) fuel tree_sha
    tree_data :
  tree_resolves self (S fuel) tree_sha = true ->
  get_tree (_github_client self) (_owner self) (_repo self) tree_sha = Ok tree_data ->
  subtrees_ok (_recurse_tree get_file_extension fuel self)
    (GitTreeResponseModel.tree tree_data).
Proof.
  intros Hres Hget. cbn [tree_resolves] in Hres. rewrite Hget in Hres.
  apply Forall_forall. intros tree_obj Hin Htree p d w.
  apply recurse_tree_returns_or_unpack_None.
  rewrite forallb_forall in Hres. specialize (Hres tree_obj).
  rewrite Htree in Hres. apply Hres. now apply list_elem_of_In.
Qed.

End WalkProperties.

(** C2, at a failing input.  The reader has no filter and the root tree
    holds the single blob b.png: the walk does not admit the blob, it raises
    the [TypeError] of unpacking [None] in [_check_filter_file_extensions]. *)
Theorem walk_without_filters_fails :
  _recurse_tree Demo.get_file_extension 5
    (Demo.reader Demo.one_blob_client true 5 None None) "t0" "" 0 Demo.w0
  = Raises unpack_None (log_call Demo.w0 (GetTree "owner" "repo" "t0")).
Proof. reflexivity. Qed.

(** C3, as the spec states it, fails: with both filters configured and the
    same directory filter, the walk over the tree that holds b.png returns
    the blob under an extension filter that rejects nothing and returns
    nothing under the extension filter that excludes the extension of
    b.png (listed with and without its dot, so that the example does not
    depend on which of the two [get_file_extension] returns).  The
    extension filter does remove a blob from the walk's result. *)
Lemma extension_filter_removes_blob :
  _recurse_tree Demo.get_file_extension 5
    (Demo.reader Demo.one_blob_client true 5 (Some ([], EXCLUDE))
       (Some ([], EXCLUDE))) "t0" "" 0 Demo.w0
  = Returns [(Demo.obj "b.png" "blob" "b2", "b.png")]
      (log_call Demo.w0 (GetTree "owner" "repo" "t0"))
  /\ _recurse_tree Demo.get_file_extension 5
    (Demo.reader Demo.one_blob_client true 5 (Some ([], EXCLUDE))
       (Some ([".png"; "png"], EXCLUDE))) "t0" "" 0 Demo.w0
  = Returns [] (log_call Demo.w0 (GetTree "owner" "repo" "t0")).
Proof. split; reflexivity. Qed.

(** The extension filter takes blobs out of the result and does nothing
    else: the walk returns what it returns under the same directory filter
    and an extension filter that rejects nothing, less the blobs whose path
    the extension filter rejects; requests and errors are the same. *)
Theorem walk_applies_extension_filter (get_file_extension : string -> string)
    (self : GithubRepositoryReader) (spec : list string * FilterType)
    (fuel : nat) (tree_sha current_path : string) (current_depth : Z) (w : World) :
  _filter_file_extensions self = Some spec ->
  _recurse_tree get_file_extension fuel self tree_sha current_path current_depth w
  = outcome_map
      (List.filter (fun bp : blob_and_path =>
                      extension_admits get_file_extension spec bp.2))
      (_recurse_tree get_file_extension fuel
         (with_filter_file_extensions self (Some admit_all))
         tree_sha current_path current_depth w).
Proof. intros Hspec. now apply recurse_tree_extension_filter. Qed.

Lemma walk_applies_extension_filter_witness :
  _filter_file_extensions
    (Demo.reader Demo.client true 5 (Some (["docs"], EXCLUDE)) (Some (["png"], EXCLUDE)))
  = Some (["png"], EXCLUDE)
  /\ _recurse_tree Demo.get_file_extension 5
       (Demo.reader Demo.client true 5 (Some (["docs"], EXCLUDE))
          (Some (["png"], EXCLUDE))) "t0" "" 0 Demo.w0
     = outcome_map
         (List.filter (fun bp : blob_and_path =>
                         extension_admits Demo.get_file_extension (["png"], EXCLUDE) bp.2))
         (_recurse_tree Demo.get_file_extension 5
            (with_filter_file_extensions
               (Demo.reader Demo.client true 5 (Some (["docs"], EXCLUDE))
                  (Some (["png"], EXCLUDE)))
               (Some admit_all))
            "t0" "" 0 Demo.w0).
Proof.
  split; [reflexivity |].
  apply (walk_applies_extension_filter Demo.get_file_extension
           (Demo.reader Demo.client true 5 (Some (["docs"], EXCLUDE))
              (Some (["png"], EXCLUDE)))
           (["png"], EXCLUDE) 5 "t0" "" 0 Demo.w0).
  reflexivity.
Defined.

(** C10, amended: the walk calls both filter checks unconditionally, not
    through [_allow_tree_obj].  It raises the [TypeError] of unpacking [None]
    when the tree has a subdirectory child and [filter_directories] is
    [None], and, on a tree the client serves in full, when the tree has a
    blob child and [filter_file_extensions] is [None]. *)
Theorem walk_needs_both_filters (get_file_extension : string -> string)
    (self : GithubRepositoryReader) (fuel : nat) (tree_sha current_path : string)
    (current_depth : Z) (tree_data : GitTreeResponseModel.t) (w : World) :
  get_tree (_github_client self) (_owner self) (_repo self) tree_sha = Ok tree_data ->
  (fuel <> O
   /\ _filter_directories self = None
   /\ exists tree_obj, In tree_obj (GitTreeResponseModel.tree tree_data)
                       /\ GitTreeObject.type tree_obj = "tree")
  \/ (tree_resolves self fuel tree_sha = true
      /\ _filter_file_extensions self = None
      /\ exists tree_obj, In tree_obj (GitTreeResponseModel.tree tree_data)
                          /\ GitTreeObject.type tree_obj = "blob") ->
  exists w',
    _recurse_tree get_file_extension fuel self tree_sha current_path current_depth w
    = Raises (Exn TypeError "cannot unpack non-iterable NoneType object") w'.
Proof.
  intros Hget [(Hfuel & Hnone & Hchild)|(Hres & Hnone & Hchild)].
  - destruct fuel as [|fuel]; [contradiction |].
    cbn [_recurse_tree]. unfold bind, request. rewrite Hget. cbn [lift ret].
    eexists. now apply recurse_tree_loop_no_directory_filter.
  - destruct fuel as [|fuel]; [discriminate Hres |].
    pose proof (tree_resolves_subtrees_ok get_file_extension self fuel tree_sha
                  tree_data Hres Hget) as Hsub.
    cbn [_recurse_tree]. unfold bind, request. rewrite Hget. cbn [lift ret].
    now apply recurse_tree_loop_no_extension_filter.
Qed.

Lemma walk_needs_both_filters_witness :
  (exists w',
     _recurse_tree Demo.get_file_extension 5
       (Demo.reader Demo.client true 5 None (Some ([], EXCLUDE))) "t0" "" 0 Demo.w0
     = Raises (Exn TypeError "cannot unpack non-iterable NoneType object") w')
  /\ (exists w',
     _recurse_tree Demo.get_file_extension 5
       (Demo.reader Demo.client true 5 (Some ([], EXCLUDE)) None) "t0" "" 0 Demo.w0
     = Raises (Exn TypeError "cannot unpack non-iterable NoneType object") w').
Proof.
  split.
  - apply (walk_needs_both_filters Demo.get_file_extension
             (Demo.reader Demo.client true 5 None (Some ([], EXCLUDE))) 5 "t0" "" 0
             (GitTreeResponseModel.mk "t0"
                [Demo.obj "a.md" "blob" "b1"; Demo.obj "docs" "tree" "t1";
                 Demo.obj "b.png" "blob" "b2"])
             Demo.w0).
    + reflexivity.
    + left. split; [discriminate |]. split; [reflexivity |].
      exists (Demo.obj "docs" "tree" "t1"). split; [simpl; tauto | reflexivity].
  - apply (walk_needs_both_filters Demo.get_file_extension
             (Demo.reader Demo.client true 5 (Some ([], EXCLUDE)) None) 5 "t0" "" 0
             (GitTreeResponseModel.mk "t0"
                [Demo.obj "a.md" "blob" "b1"; Demo.obj "docs" "tree" "t1";
                 Demo.obj "b.png" "blob" "b2"])
             Demo.w0).
    + reflexivity.
    + right. split; [reflexivity |]. split; [reflexivity |].
      exists (Demo.obj "b.png" "blob" "b2"). split; [simpl; tauto | reflexivity].
Defined.

(* ===================================================================== *)
(** ** Temporary names are unused *)
(* ===================================================================== *)

Lemma string_length_append (a b : string) :
  String.length (a +:+ b) = (String.length a + String.length b)%nat.
Proof.
  induction a as [|c a IH]; [reflexivity |].
  change (String c a +:+ b) with (String c (a +:+ b)).
  cbn [String.length Nat.add]. now rewrite IH.
Qed.

Lemma padding_length (n : nat) : String.length (padding n) = n.
Proof. induction n as [|n IH]; cbn; [reflexivity | now rewrite IH]. Qed.

Lemma prefix_length (p s : string) :
  String.prefix p s = true -> (String.length p <= String.length s)%nat.
Proof.
  revert s. induction p as [|c p IH]; intros s H; cbn; [lia |].
  destruct s as [|c' s]; cbn in H; [discriminate H |].
  destruct (ascii_dec c c'); [|discriminate H].
  apply IH in H. cbn. lia.
Qed.

Lemma max_name_length_bound (f : gmap string fs_node) (name : string) :
  is_Some (f !! name) -> (String.length name <= max_name_length f)%nat.
Proof.
  intros Hsome. apply elem_of_dom, elem_of_elements in Hsome.
  unfold max_name_length. induction (elements (dom f)) as [|x l IH].
  - now apply elem_of_nil in Hsome.
  - cbn [foldr]. apply elem_of_cons in Hsome as [->|Hin]; [lia |].
    specialize (IH Hin). lia.
Qed.

Lemma unique_name_length (f : gmap string fs_node) (pre suffix : string) :
  (max_name_length f < String.length (unique_name f pre suffix))%nat.
Proof.
  unfold unique_name. rewrite !string_length_append, padding_length. lia.
Qed.

Lemma unique_name_fresh (f : gmap string fs_node) (pre suffix : string) :
  f !! unique_name f pre suffix = None.
Proof.
  destruct (f !! unique_name f pre suffix) eqn:E; [|reflexivity].
  pose proof (max_name_length_bound f _ (mk_is_Some _ _ E)).
  pose proof (unique_name_length f pre suffix). lia.
Qed.

(** Nothing of the file system lies at or below a name that long. *)
Lemma unique_name_nothing_inside (f : gmap string fs_node) (pre suffix p : string) :
  is_Some (f !! p) -> inside (unique_name f pre suffix) p = false.
Proof.
  intros Hsome. pose proof (max_name_length_bound f p Hsome) as Hlen.
  pose proof (unique_name_length f pre suffix) as Hlong.
  unfold inside, startswith. apply orb_false_iff. split.
  - apply String.eqb_neq. intros ->. lia.
  - destruct (String.prefix _ p) eqn:E; [|reflexivity].
    apply prefix_length in E. rewrite string_length_append in E. lia.
Qed.

Lemma tmpdir_name_fresh (f : gmap string fs_node) : f !! tmpdir_name f = None.
Proof. apply unique_name_fresh. Qed.

Lemma tmpfile_name_fresh_in_dir (f : gmap string fs_node) (ext : string) :
  <[tmpdir_name f := Dir]> f !! tmpfile_name f ext = None.
Proof. apply unique_name_fresh. Qed.

Lemma tmpfile_name_fresh (f : gmap string fs_node) (ext : string) :
  f !! tmpfile_name f ext = None.
Proof.
  pose proof (tmpfile_name_fresh_in_dir f ext) as H.
  apply lookup_insert_None in H. tauto.
Qed.

Lemma tmpfile_in_fs_at_parse (f : gmap string fs_node) (ext : string) (content : bytes) :
  fs_at_parse f ext content !! tmpfile_name f ext = Some (File content).
Proof. unfold fs_at_parse. apply lookup_insert_eq. Qed.

(** Removing the temporary directory gives the file system back. *)
Lemma rmtree_restores (f : gmap string fs_node) :
  filter (fun kv : string * fs_node => inside (tmpdir_name f) kv.1 = false)
         (<[tmpdir_name f := Dir]> f) = f.
Proof.
  rewrite map_filter_insert_False.
  - rewrite delete_id by apply tmpdir_name_fresh.
    apply map_filter_id. intros p x Hp. cbn.
    apply unique_name_nothing_inside. now exists x.
  - cbn. unfold inside. rewrite String.eqb_refl. discriminate.
Qed.

Lemma set_fs_set_fs (w : World) (f g : gmap string fs_node) :
  set_fs (set_fs w f) g = set_fs w g.
Proof. reflexivity. Qed.

Lemma set_fs_same (w : World) : set_fs w (fs w) = w.
Proof. now destruct w. Qed.

(* ===================================================================== *)
(** ** Document synthesizer *)
(* ===================================================================== *)

Lemma os_remove_tmpfile (f : gmap string fs_node) (ext : string) (content : bytes)
    (w : World) :
  fs w = fs_at_parse f ext content ->
  os_remove (tmpfile_name f ext) w
  = Returns tt (set_fs w (<[tmpdir_name f := Dir]> f)).
Proof.
  intros Hfs. unfold os_remove. rewrite Hfs, tmpfile_in_fs_at_parse.
  unfold fs_at_parse. rewrite delete_insert_eq.
  now rewrite delete_id by apply tmpfile_name_fresh_in_dir.
Qed.

Lemma rmtree_tmpdir (f : gmap string fs_node) (w : World) :
  fs w = <[tmpdir_name f := Dir]> f ->
  rmtree (tmpdir_name f) w = Returns tt (set_fs w f).
Proof. intros Hfs. unfold rmtree. now rewrite Hfs, rmtree_restores. Qed.

Section SynthesisProperties.

Variable get_file_extension : string -> string.
Variable DEFAULT_FILE_EXTRACTOR : gmap string Parser.

Lemma parse_supported_file_run (self : GithubRepositoryReader)
    (file_path : string) (file_content : bytes) (tree_sha tree_path : string)
    (parser : Parser) (w : World) :
  DEFAULT_FILE_EXTRACTOR !! get_file_extension file_path = Some parser ->
  init_parser parser = Ok tt ->
  _parse_supported_file get_file_extension DEFAULT_FILE_EXTRACTOR self file_path
    file_content tree_sha tree_path w
  = match parse_file parser
            (fs_at_parse (fs w) (get_file_extension file_path) file_content)
            (tmpfile_name (fs w) (get_file_extension file_path)) with
    | Ok parsed_file =>
        Returns (Some {| text := join_double_newline parsed_file;
                         doc_id := tree_sha;
                         extra_info := {[ "file_path" := file_path;
                                          "file_name" := tree_path ]} |}) w
    | Raise e =>
        if is_Exception e
        then Returns None (log_error w (parse_error_message file_path parser e))
        else Raises e w
    end.
Proof.
  intros Hparser Hinit. unfold _parse_supported_file.
  rewrite Hparser, Hinit.
  unfold with_TemporaryDirectory, with_NamedTemporaryFile.
  unfold bind at 1. cbn [lift ret].
  unfold bind at 1. unfold mkdtemp. fold (tmpdir_name (fs w)).
  unfold try_finally at 1.
  unfold bind at 1. unfold create_named_temporary_file. cbn [fs set_fs].
  rewrite lookup_insert_eq. fold (tmpfile_name (fs w) (get_file_extension file_path)).
  unfold try_finally at 1.
  unfold bind at 1. unfold write_flush_close. cbn [fs set_fs].
  rewrite lookup_insert_eq. rewrite insert_insert_eq. cbn [app].
  fold (fs_at_parse (fs w) (get_file_extension file_path) file_content).
  unfold bind at 1. unfold try_finally at 1. unfold try_except.
  unfold bind at 1. unfold call_parse_file. cbn [fs set_fs].
  rewrite !set_fs_set_fs.
  destruct (parse_file parser _ _) as [parsed_file|e]; cbn [lift ret raise].
  - rewrite (os_remove_tmpfile (fs w) _ file_content) by reflexivity.
    cbv beta iota. unfold ret. rewrite set_fs_set_fs.
    rewrite (rmtree_tmpdir (fs w)) by reflexivity.
    now rewrite set_fs_set_fs, set_fs_same.
  - destruct (is_Exception e).
    + unfold bind, logger_error. cbn [ret fs calls logged set_fs].
      rewrite (os_remove_tmpfile (fs w) _ file_content) by reflexivity.
      cbv beta iota. unfold ret.
      rewrite (rmtree_tmpdir (fs w)) by reflexivity.
      cbn [set_fs fs calls logged]. reflexivity.
    + rewrite (os_remove_tmpfile (fs w) _ file_content) by reflexivity.
      cbv beta iota. unfold ret. rewrite set_fs_set_fs.
      rewrite (rmtree_tmpdir (fs w)) by reflexivity.
      now rewrite set_fs_set_fs, set_fs_same.
Qed.

Lemma parse_supported_file_no_parser (self : GithubRepositoryReader)
    (file_path : string) (file_content : bytes) (tree_sha tree_path : string)
    (w : World) :
  DEFAULT_FILE_EXTRACTOR !! get_file_extension file_path = None ->
  _parse_supported_file get_file_extension DEFAULT_FILE_EXTRACTOR self file_path
    file_content tree_sha tree_path w = Returns None w.
Proof. intros H. unfold _parse_supported_file. now rewrite H. Qed.

Lemma parse_supported_file_init_fails (self : GithubRepositoryReader)
    (file_path : string) (file_content : bytes) (tree_sha tree_path : string)
    (parser : Parser) (e : exn) (w : World) :
  DEFAULT_FILE_EXTRACTOR !! get_file_extension file_path = Some parser ->
  init_parser parser = Raise e ->
  _parse_supported_file get_file_extension DEFAULT_FILE_EXTRACTOR self file_path
    file_content tree_sha tree_path w = Raises e w.
Proof. intros H Hinit. unfold _parse_supported_file. now rewrite H, Hinit. Qed.

(** Whatever happens, [_parse_supported_file] ends and leaves the file
    system as it found it. *)
Lemma parse_supported_file_keeps_fs (self : GithubRepositoryReader)
    (file_path : string) (file_content : bytes) (tree_sha tree_path : string)
    (w : World) :
  exists w',
    final_world (_parse_supported_file get_file_extension DEFAULT_FILE_EXTRACTOR
                   self file_path file_content tree_sha tree_path w) = Some w'
    /\ fs w' = fs w.
Proof.
  destruct (DEFAULT_FILE_EXTRACTOR !! get_file_extension file_path)
    as [parser|] eqn:Hparser.
  - destruct (init_parser parser) as [[]|e] eqn:Hinit.
    + rewrite (parse_supported_file_run self _ _ _ _ parser w Hparser Hinit).
      destruct (parse_file parser _ _) as [parsed_file|e];
        [|destruct (is_Exception e)]; eexists; split; reflexivity.
    + rewrite (parse_supported_file_init_fails self _ _ _ _ parser e w Hparser Hinit).
      now exists w.
  - rewrite parse_supported_file_no_parser by exact Hparser. now exists w.
Qed.

(** A document of the parser path: its id is [tree_sha] and its two
    metadata entries are [file_path] and [tree_path]. *)
Lemma parse_supported_file_document (self : GithubRepositoryReader)
    (file_path : string) (file_content : bytes) (tree_sha tree_path : string)
    (w w' : World) (document : Document) :
  _parse_supported_file get_file_extension DEFAULT_FILE_EXTRACTOR self file_path
    file_content tree_sha tree_path w = Returns (Some document) w' ->
  exists parsed_file,
    document = {| text := join_double_newline parsed_file;
                  doc_id := tree_sha;
                  extra_info := {[ "file_path" := file_path;
                                   "file_name" := tree_path ]} |}.
Proof.
  destruct (DEFAULT_FILE_EXTRACTOR !! get_file_extension file_path)
    as [parser|] eqn:Hparser.
  - destruct (init_parser parser) as [[]|e] eqn:Hinit.
    + rewrite (parse_supported_file_run self _ _ _ _ parser w Hparser Hinit).
      destruct (parse_file parser _ _) as [parsed_file|e];
        [|destruct (is_Exception e); discriminate].
      intros [= <- _]. now exists parsed_file.
    + rewrite (parse_supported_file_init_fails self _ _ _ _ parser e w Hparser Hinit).
      discriminate.
  - rewrite parse_supported_file_no_parser by exact Hparser. discriminate.
Qed.

Variable b64decode : string -> result bytes.
Variable decode_utf8 : bytes -> result string.

Abbreviation loop :=
  (generate_documents_loop get_file_extension DEFAULT_FILE_EXTRACTOR b64decode
     decode_utf8).

(** A step of the loop of [_generate_documents] that fails the assertion
    on the encoding. *)
Lemma generate_documents_loop_assert (self : GithubRepositoryReader)
    (anext : M blob_data_and_path) (rest : list (M blob_data_and_path))
    (documents : list Document) (blob_data : GitBlobResponseModel.t)
    (full_path : string) (w w1 : World) :
  anext w = Returns (blob_data, full_path) w1 ->
  GitBlobResponseModel.encoding blob_data <> "base64" ->
  loop self (anext :: rest) documents w
  = Raises (Exn AssertionError
              ("blob encoding " +:+ GitBlobResponseModel.encoding blob_data
               +:+ " not supported")) w1.
Proof.
  intros Hnext Henc. apply String.eqb_neq in Henc.
  cbn [generate_documents_loop]. unfold bind at 1. rewrite Hnext.
  cbn [fst snd]. unfold bind at 1. now rewrite Henc.
Qed.

(** A step of the loop on a blob whose content decodes: the parser path,
    then the raw-text path. *)
Lemma generate_documents_loop_decoded (self : GithubRepositoryReader)
    (anext : M blob_data_and_path) (rest : list (M blob_data_and_path))
    (documents : list Document) (blob_data : GitBlobResponseModel.t)
    (full_path : string) (decoded_bytes : bytes) (w w1 : World) :
  anext w = Returns (blob_data, full_path) w1 ->
  GitBlobResponseModel.encoding blob_data = "base64" ->
  b64decode (GitBlobResponseModel.content blob_data) = Ok decoded_bytes ->
  loop self (anext :: rest) documents w
  = match (if _use_parser self
           then _parse_supported_file get_file_extension DEFAULT_FILE_EXTRACTOR
                  self full_path decoded_bytes
                  (GitBlobResponseModel.sha blob_data) full_path
           else ret None) w1 with
    | Returns (Some document) w2 => loop self rest (documents ++ [document]) w2
    | Returns None w2 =>
        match decode_utf8 decoded_bytes with
        | Ok decoded_text =>
            loop self rest
              (documents ++
               [raw_text_document decoded_text
                  (GitBlobResponseModel.sha blob_data) full_path]) w2
        | Raise e =>
            if is_UnicodeDecodeError e then loop self rest documents w2
            else Raises e w2
        end
    | Raises e w2 => Raises e w2
    | Diverges => Diverges
    end.
Proof.
  intros Hnext Henc Hdec. apply String.eqb_eq in Henc.
  cbn [generate_documents_loop]. unfold bind at 1. rewrite Hnext.
  cbn [fst snd]. unfold bind at 1. rewrite Henc. cbn [assert_ ret].
  unfold bind at 1. unfold try_except at 1. unfold bind at 1.
  rewrite Hdec. cbn [lift ret]. unfold bind at 1.
  set (parse := if _use_parser self
                then _parse_supported_file get_file_extension DEFAULT_FILE_EXTRACTOR
                       self full_path decoded_bytes
                       (GitBlobResponseModel.sha blob_data) full_path
                else ret None).
  destruct (parse w1) as [[document|] w2|e w2|]; try reflexivity.
  unfold bind at 1. unfold try_except, bind.
  destruct (decode_utf8 decoded_bytes) as [decoded_text|e]; cbn [lift ret raise].
  - reflexivity.
  - now destruct (is_UnicodeDecodeError e).
Qed.

(** A step of the loop on a blob whose content is not valid base64. *)
Lemma generate_documents_loop_malformed (self : GithubRepositoryReader)
    (anext : M blob_data_and_path) (rest : list (M blob_data_and_path))
    (documents : list Document) (blob_data : GitBlobResponseModel.t)
    (full_path : string) (e : exn) (w w1 : World) :
  anext w = Returns (blob_data, full_path) w1 ->
  GitBlobResponseModel.encoding blob_data = "base64" ->
  b64decode (GitBlobResponseModel.content blob_data) = Raise e ->
  is_BinasciiError e = true ->
  loop self (anext :: rest) documents w = loop self rest documents w1.
Proof.
  intros Hnext Henc Hdec He. apply String.eqb_eq in Henc.
  cbn [generate_documents_loop]. unfold bind at 1. rewrite Hnext.
  cbn [fst snd]. unfold bind at 1. rewrite Henc. cbn [assert_ ret].
  unfold bind at 1. unfold try_except at 1. unfold bind at 1.
  rewrite Hdec. cbn [lift raise]. now rewrite He.
Qed.

End SynthesisProperties.


Section SynthesisClaims.

Variable get_file_extension : string -> string.
Variable DEFAULT_FILE_EXTRACTOR : gmap string Parser.
Variable b64decode : string -> result bytes.
Variable decode_utf8 : bytes -> result string.

Abbreviation documents_loop :=
  (generate_documents_loop get_file_extension DEFAULT_FILE_EXTRACTOR b64decode
     decode_utf8).

Abbreviation parse_supported_file :=
  (_parse_supported_file get_file_extension DEFAULT_FILE_EXTRACTOR).

(** C1, amended: during document synthesis, a (BlobContent, path) pair whose
    encoding tag is not "base64" fails the assertion of
    [_generate_documents]: an [AssertionError] is raised at that blob, the
    remaining blobs are not processed and no list of documents is
    returned. *)
Theorem unsupported_encoding_aborts (self : GithubRepositoryReader)
    (anext : M blob_data_and_path) (rest : list (M blob_data_and_path))
    (documents : list Document) (blob_data : GitBlobResponseModel.t)
    (full_path : string) (w w1 : World) :
  anext w = Returns (blob_data, full_path) w1 ->
  GitBlobResponseModel.encoding blob_data <> "base64" ->
  documents_loop self (anext :: rest) documents w
  = Raises (Exn AssertionError
              ("blob encoding " +:+ GitBlobResponseModel.encoding blob_data
               +:+ " not supported")) w1.
Proof. apply generate_documents_loop_assert. Qed.

(** C6, amended: with structured extraction enabled, when [init_parser] of
    the parser registered for the extension of the blob's path has
    succeeded and its [parse_file] raises an [Exception], the step does not
    fail: the error is logged and the decoded bytes are decoded as UTF-8.
    If that succeeds the raw-text document is appended; the blob is skipped
    when that decoding fails as well. *)
Theorem parser_failure_falls_back (self : GithubRepositoryReader)
    (anext : M blob_data_and_path) (rest : list (M blob_data_and_path))
    (documents : list Document) (blob_data : GitBlobResponseModel.t)
    (full_path : string) (decoded_bytes : bytes) (parser : Parser) (e : exn)
    (w w1 : World) :
  anext w = Returns (blob_data, full_path) w1 ->
  GitBlobResponseModel.encoding blob_data = "base64" ->
  b64decode (GitBlobResponseModel.content blob_data) = Ok decoded_bytes ->
  _use_parser self = true ->
  DEFAULT_FILE_EXTRACTOR !! get_file_extension full_path = Some parser ->
  init_parser parser = Ok tt ->
  parse_file parser
    (fs_at_parse (fs w1) (get_file_extension full_path) decoded_bytes)
    (tmpfile_name (fs w1) (get_file_extension full_path)) = Raise e ->
  is_Exception e = true ->
  (forall decoded_text,
     decode_utf8 decoded_bytes = Ok decoded_text ->
     documents_loop self (anext :: rest) documents w
     = documents_loop self rest
         (documents ++
          [raw_text_document decoded_text (GitBlobResponseModel.sha blob_data)
             full_path])
         (log_error w1 (parse_error_message full_path parser e)))
  /\ (forall e',
     decode_utf8 decoded_bytes = Raise e' ->
     is_UnicodeDecodeError e' = true ->
     documents_loop self (anext :: rest) documents w
     = documents_loop self rest documents
         (log_error w1 (parse_error_message full_path parser e))).
Proof.
  intros Hnext Henc Hdec Huse Hparser Hinit Hparse He.
  rewrite (generate_documents_loop_decoded get_file_extension DEFAULT_FILE_EXTRACTOR
             b64decode decode_utf8 self anext rest documents
             blob_data full_path decoded_bytes w w1 Hnext Henc Hdec).
  rewrite Huse.
  rewrite (parse_supported_file_run get_file_extension DEFAULT_FILE_EXTRACTOR self _ _ _ _ parser w1 Hparser Hinit).
  rewrite Hparse, He.
  split.
  - intros decoded_text ->. reflexivity.
  - intros e' -> ->. reflexivity.
Qed.

(** C8: a document of the parser path carries the full path of the blob as
    "file_name"; a document of the raw-text path carries the last segment of
    that path.  Both carry the sha of the blob as their id and the full path
    as "file_path". *)
Theorem document_metadata (self : GithubRepositoryReader)
    (anext : M blob_data_and_path) (rest : list (M blob_data_and_path))
    (documents : list Document) (blob_data : GitBlobResponseModel.t)
    (full_path : string) (decoded_bytes : bytes) (w w1 : World) :
  anext w = Returns (blob_data, full_path) w1 ->
  GitBlobResponseModel.encoding blob_data = "base64" ->
  b64decode (GitBlobResponseModel.content blob_data) = Ok decoded_bytes ->
  (forall document w2,
     _use_parser self = true ->
     parse_supported_file self full_path decoded_bytes
       (GitBlobResponseModel.sha blob_data) full_path w1
     = Returns (Some document) w2 ->
     documents_loop self (anext :: rest) documents w
     = documents_loop self rest (documents ++ [document]) w2
     /\ doc_id document = GitBlobResponseModel.sha blob_data
     /\ extra_info document !! "file_path" = Some full_path
     /\ extra_info document !! "file_name" = Some full_path)
  /\ (forall decoded_text w2,
     (if _use_parser self
      then parse_supported_file self full_path decoded_bytes
             (GitBlobResponseModel.sha blob_data) full_path
      else ret None) w1 = Returns None w2 ->
     decode_utf8 decoded_bytes = Ok decoded_text ->
     exists document,
       documents_loop self (anext :: rest) documents w
       = documents_loop self rest (documents ++ [document]) w2
       /\ text document = decoded_text
       /\ doc_id document = GitBlobResponseModel.sha blob_data
       /\ extra_info document !! "file_path" = Some full_path
       /\ extra_info document !! "file_name" = Some (last_segment full_path)
       /\ ~ has_char "/" (last_segment full_path)
       /\ (full_path = last_segment full_path
           \/ exists dir, full_path = dir +:+ "/" +:+ last_segment full_path)).
Proof.
  intros Hnext Henc Hdec.
  pose proof (generate_documents_loop_decoded get_file_extension DEFAULT_FILE_EXTRACTOR
             b64decode decode_utf8 self anext rest documents
                blob_data full_path decoded_bytes w w1 Hnext Henc Hdec) as Hstep.
  split.
  - intros document w2 Huse Hparsed.
    rewrite Huse, Hparsed in Hstep. split; [exact Hstep |].
    apply parse_supported_file_document in Hparsed as [parsed_file ->].
    repeat split.
  - intros decoded_text w2 Hnone Hutf8.
    rewrite Hnone, Hutf8 in Hstep.
    eexists. split; [exact Hstep |].
    do 4 (split; [reflexivity |]). apply last_segment_spec.
Qed.

(** C9: when a parser is invoked on a blob, the decoded bytes are in a
    temporary file whose name was unused, the parser is called on that
    file, and once [_parse_supported_file] is left the file system is the
    one it started from, whether the parser returned, raised an [Exception]
    or raised anything else: the temporary file is gone. *)
Theorem temporary_file_removed (self : GithubRepositoryReader)
    (file_path : string) (file_content : bytes) (tree_sha tree_path : string)
    (parser : Parser) (w : World) :
  DEFAULT_FILE_EXTRACTOR !! get_file_extension file_path = Some parser ->
  init_parser parser = Ok tt ->
  let tmpfile := tmpfile_name (fs w) (get_file_extension file_path) in
  let fs_parse := fs_at_parse (fs w) (get_file_extension file_path) file_content in
  fs w !! tmpfile = None
  /\ fs_parse !! tmpfile = Some (File file_content)
  /\ (forall parsed_file,
        parse_file parser fs_parse tmpfile = Ok parsed_file ->
        exists document,
          parse_supported_file self file_path file_content tree_sha tree_path w
          = Returns (Some document) w)
  /\ (forall e,
        parse_file parser fs_parse tmpfile = Raise e ->
        parse_supported_file self file_path file_content tree_sha tree_path w
        = if is_Exception e
          then Returns None (log_error w (parse_error_message file_path parser e))
          else Raises e w)
  /\ exists w',
       final_world
         (parse_supported_file self file_path file_content tree_sha tree_path w)
       = Some w'
       /\ fs w' = fs w
       /\ fs w' !! tmpfile = None.
Proof.
  intros Hparser Hinit tmpfile fs_parse.
  pose proof (parse_supported_file_run get_file_extension DEFAULT_FILE_EXTRACTOR self file_path file_content tree_sha
                tree_path parser w Hparser Hinit) as Hrun.
  fold tmpfile fs_parse in Hrun.
  split; [apply tmpfile_name_fresh |].
  split; [apply tmpfile_in_fs_at_parse |].
  split; [|split].
  - intros parsed_file Hok. rewrite Hok in Hrun. eexists. exact Hrun.
  - intros e Hraise. now rewrite Hraise in Hrun.
  - destruct (parse_supported_file_keeps_fs get_file_extension DEFAULT_FILE_EXTRACTOR
                self file_path file_content tree_sha tree_path w) as (w' & Hfinal & Hfs).
    exists w'. split; [exact Hfinal |]. split; [exact Hfs |].
    rewrite Hfs. apply tmpfile_name_fresh.
Qed.

End SynthesisClaims.

(** C1, as the spec states it, fails: the first blob has the encoding tag
    "utf-8" and the second one is a well-formed base64 blob.  The loop does
    not skip the first blob and go on to the second: it raises
    [AssertionError] and returns no documents. *)
Lemma unsupported_encoding_not_skipped :
  generate_documents_loop Demo.get_file_extension Demo.DEFAULT_FILE_EXTRACTOR
    Demo.b64decode Demo.decode_utf8
    (Demo.reader Demo.client false 5 None None)
    [ret (GitBlobResponseModel.mk "aGk=" "utf-8" "b1", "a.txt");
     ret (GitBlobResponseModel.mk "aGk=" "base64" "b2", "b.txt")]
    [] Demo.w0
  = Raises (Exn AssertionError "blob encoding utf-8 not supported") Demo.w0
  /\ ~ (exists documents w',
          generate_documents_loop Demo.get_file_extension Demo.DEFAULT_FILE_EXTRACTOR
            Demo.b64decode Demo.decode_utf8
            (Demo.reader Demo.client false 5 None None)
            [ret (GitBlobResponseModel.mk "aGk=" "utf-8" "b1", "a.txt");
             ret (GitBlobResponseModel.mk "aGk=" "base64" "b2", "b.txt")]
            [] Demo.w0
          = Returns documents w').
Proof.
  split; [reflexivity |].
  intros (documents & w' & H). vm_compute in H. discriminate H.
Qed.

Lemma unsupported_encoding_aborts_witness :
  generate_documents_loop Demo.get_file_extension Demo.DEFAULT_FILE_EXTRACTOR
    Demo.b64decode Demo.decode_utf8
    (Demo.reader Demo.client false 5 None None)
    [ret (GitBlobResponseModel.mk "aGk=" "utf-8" "b1", "a.txt");
     ret (GitBlobResponseModel.mk "aGk=" "base64" "b2", "b.txt")]
    [] Demo.w0
  = Raises (Exn AssertionError "blob encoding utf-8 not supported") Demo.w0.
Proof.
  apply (unsupported_encoding_aborts Demo.get_file_extension
           Demo.DEFAULT_FILE_EXTRACTOR Demo.b64decode Demo.decode_utf8
           (Demo.reader Demo.client false 5 None None)
           (ret (GitBlobResponseModel.mk "aGk=" "utf-8" "b1", "a.txt"))
           [ret (GitBlobResponseModel.mk "aGk=" "base64" "b2", "b.txt")]
           [] (GitBlobResponseModel.mk "aGk=" "utf-8" "b1") "a.txt" Demo.w0 Demo.w0).
  - reflexivity.
  - discriminate.
Defined.

Lemma parser_failure_falls_back_witness :
  generate_documents_loop Demo.get_file_extension Demo.DEFAULT_FILE_EXTRACTOR
    Demo.b64decode Demo.decode_utf8
    (Demo.reader Demo.client true 5 None None)
    [ret (GitBlobResponseModel.mk "aGk=" "base64" "b7", "papers/x.pdf")] [] Demo.w0
  = Returns [raw_text_document "hi" "b7" "papers/x.pdf"]
      (log_error Demo.w0
         (parse_error_message "papers/x.pdf" Demo.failing_parser
            (Exn (OtherException "ParseError") "broken file"))).
Proof.
  apply (proj1
           (parser_failure_falls_back Demo.get_file_extension
              Demo.DEFAULT_FILE_EXTRACTOR Demo.b64decode Demo.decode_utf8
              (Demo.reader Demo.client true 5 None None)
              (ret (GitBlobResponseModel.mk "aGk=" "base64" "b7", "papers/x.pdf"))
              [] [] (GitBlobResponseModel.mk "aGk=" "base64" "b7") "papers/x.pdf"
              Demo.hi Demo.failing_parser
              (Exn (OtherException "ParseError") "broken file")
              Demo.w0 Demo.w0
              eq_refl eq_refl eq_refl eq_refl eq_refl eq_refl eq_refl eq_refl)
           "hi").
  reflexivity.
Defined.

Lemma document_metadata_witness :
  (exists document,
     generate_documents_loop Demo.get_file_extension Demo.DEFAULT_FILE_EXTRACTOR
       Demo.b64decode Demo.decode_utf8
       (Demo.reader Demo.client true 5 None None)
       [ret (GitBlobResponseModel.mk "aGk=" "base64" "b3", "docs/notes.txt")] []
       Demo.w0
     = Returns [document] Demo.w0
     /\ text document = "hi"
     /\ doc_id document = "b3"
     /\ extra_info document !! "file_path" = Some "docs/notes.txt"
     /\ extra_info document !! "file_name" = Some "notes.txt")
  /\ (generate_documents_loop Demo.get_file_extension Demo.DEFAULT_FILE_EXTRACTOR
        Demo.b64decode Demo.decode_utf8
        (Demo.reader Demo.client true 5 None None)
        [ret (GitBlobResponseModel.mk "aGk=" "base64" "b4", "docs/readme.md")] []
        Demo.w0
      = Returns [parsed_document ["title"; "body"] "b4" "docs/readme.md"] Demo.w0
      /\ extra_info (parsed_document ["title"; "body"] "b4" "docs/readme.md")
           !! "file_name" = Some "docs/readme.md").
Proof.
  split.
  - destruct (proj2
                (document_metadata Demo.get_file_extension Demo.DEFAULT_FILE_EXTRACTOR
                   Demo.b64decode Demo.decode_utf8
                   (Demo.reader Demo.client true 5 None None)
                   (ret (GitBlobResponseModel.mk "aGk=" "base64" "b3", "docs/notes.txt"))
                   [] [] (GitBlobResponseModel.mk "aGk=" "base64" "b3") "docs/notes.txt"
                   Demo.hi Demo.w0 Demo.w0 eq_refl eq_refl eq_refl)
                "hi" Demo.w0 eq_refl eq_refl)
      as (document & Hloop & Htext & Hid & Hpath & Hname & _).
    exists document. repeat split; assumption.
  - destruct (proj1
                (document_metadata Demo.get_file_extension Demo.DEFAULT_FILE_EXTRACTOR
                   Demo.b64decode Demo.decode_utf8
                   (Demo.reader Demo.client true 5 None None)
                   (ret (GitBlobResponseModel.mk "aGk=" "base64" "b4", "docs/readme.md"))
                   [] [] (GitBlobResponseModel.mk "aGk=" "base64" "b4") "docs/readme.md"
                   Demo.hi Demo.w0 Demo.w0 eq_refl eq_refl eq_refl)
                (parsed_document ["title"; "body"] "b4" "docs/readme.md") Demo.w0
                eq_refl eq_refl)
      as (Hloop & _ & _ & Hname).
    split; [exact Hloop | exact Hname].
Defined.

Lemma temporary_file_removed_witness :
  Demo.DEFAULT_FILE_EXTRACTOR !! Demo.get_file_extension "docs/readme.md"
    = Some Demo.md_parser
  /\ exists w',
       final_world
         (_parse_supported_file Demo.get_file_extension Demo.DEFAULT_FILE_EXTRACTOR
            (Demo.reader Demo.client true 5 None None) "docs/readme.md" Demo.hi
            "b4" "docs/readme.md" Demo.w0) = Some w'
       /\ fs w' = fs Demo.w0
       /\ fs w' !! tmpfile_name (fs Demo.w0) (Demo.get_file_extension "docs/readme.md")
          = None.
Proof.
  split; [reflexivity |].
  apply (temporary_file_removed Demo.get_file_extension Demo.DEFAULT_FILE_EXTRACTOR
           (Demo.reader Demo.client true 5 None None) "docs/readme.md" Demo.hi
           "b4" "docs/readme.md" Demo.md_parser Demo.w0).
  - reflexivity.
  - reflexivity.
Defined.

(* ===================================================================== *)
(** ** Loading: selector and concurrency limit *)
(* ===================================================================== *)

Section LoadClaims.

Variable get_file_extension : string -> string.
Variable DEFAULT_FILE_EXTRACTOR : gmap string Parser.
Variable b64decode : string -> result bytes.
Variable decode_utf8 : bytes -> result string.
Variable BufferedGitBlobDataIterator :
  list blob_and_path -> BaseGithubClient -> string -> string -> Z -> bool ->
  M (list (M blob_data_and_path)).

Abbreviation load :=
  (load_data get_file_extension DEFAULT_FILE_EXTRACTOR b64decode decode_utf8
     BufferedGitBlobDataIterator).

(** C7: [load_data] with both a commit sha and a branch raises a
    [ValueError], and so does [load_data] with neither; in both cases the
    world is untouched, so no request has been sent.  With exactly one of
    them, the load path of that selector is taken. *)
Theorem load_data_selector (fuel : nat) (self : GithubRepositoryReader)
    (commit_sha branch : string) (w : World) :
  load fuel self (Some commit_sha) (Some branch) w
  = Raises (Exn ValueError "You can only specify one of commit or branch.") w
  /\ load fuel self None None w
     = Raises (Exn ValueError "You must specify one of commit or branch.") w
  /\ load fuel self (Some commit_sha) None
     = _load_data_from_commit get_file_extension DEFAULT_FILE_EXTRACTOR b64decode
         decode_utf8 BufferedGitBlobDataIterator fuel self commit_sha
  /\ load fuel self None (Some branch)
     = _load_data_from_branch get_file_extension DEFAULT_FILE_EXTRACTOR b64decode
         decode_utf8 BufferedGitBlobDataIterator fuel self branch.
Proof. repeat split. Qed.

(** C4, amended: the reader does not validate the concurrency limit.  The
    constructor accepts every integer, 0 and the negative ones included,
    and stores it.  [load_data] first sends the commit (or branch) request;
    if that fails the load fails with the error of the client, whatever the
    limit; otherwise it walks the tree and only then hands the limit,
    unchanged, to [BufferedGitBlobDataIterator] as [buffer_size]. *)
Theorem concurrency_limit_not_validated (github_client : BaseGithubClient)
    (owner repo : string) (use_parser verbose : bool) (concurrent_requests : Z)
    (filter_directories filter_file_extensions : option (list string * FilterType)) :
  exists self,
    __init__ github_client owner repo use_parser verbose concurrent_requests
      filter_directories filter_file_extensions = Ok self
    /\ _concurrent_requests self = concurrent_requests
    /\ (forall fuel commit_sha w,
          load fuel self (Some commit_sha) None w
          = match get_commit github_client owner repo commit_sha with
            | Raise e => Raises e (log_call w (GetCommit owner repo commit_sha))
            | Ok tree_sha =>
                (blobs_and_paths <-
                   _recurse_tree get_file_extension fuel self tree_sha "" 0 ;;
                 buffered_iterator <-
                   BufferedGitBlobDataIterator blobs_and_paths github_client owner
                     repo concurrent_requests verbose ;;
                 generate_documents_loop get_file_extension DEFAULT_FILE_EXTRACTOR
                   b64decode decode_utf8 self buffered_iterator [])
                  (log_call w (GetCommit owner repo commit_sha))
            end)
    /\ (forall fuel branch w,
          load fuel self None (Some branch) w
          = match get_branch github_client owner repo branch with
            | Raise e => Raises e (log_call w (GetBranch owner repo branch))
            | Ok tree_sha =>
                (blobs_and_paths <-
                   _recurse_tree get_file_extension fuel self tree_sha "" 0 ;;
                 buffered_iterator <-
                   BufferedGitBlobDataIterator blobs_and_paths github_client owner
                     repo concurrent_requests verbose ;;
                 generate_documents_loop get_file_extension DEFAULT_FILE_EXTRACTOR
                   b64decode decode_utf8 self buffered_iterator [])
                  (log_call w (GetBranch owner repo branch))
            end).
Proof.
  set (self := mkReader owner repo use_parser verbose concurrent_requests
                 filter_directories filter_file_extensions github_client).
  exists self. split; [reflexivity |]. split; [reflexivity |]. split.
  - intros fuel commit_sha w.
    transitivity (_load_data_from_commit get_file_extension DEFAULT_FILE_EXTRACTOR
                    b64decode decode_utf8 BufferedGitBlobDataIterator fuel self
                    commit_sha w); [reflexivity |].
    unfold _load_data_from_commit, _generate_documents.
    unfold bind at 1. unfold request. cbn [self _github_client _owner _repo].
    now destruct (get_commit github_client owner repo commit_sha).
  - intros fuel branch w.
    transitivity (_load_data_from_branch get_file_extension DEFAULT_FILE_EXTRACTOR
                    b64decode decode_utf8 BufferedGitBlobDataIterator fuel self
                    branch w); [reflexivity |].
    unfold _load_data_from_branch, _generate_documents.
    unfold bind at 1. unfold request. cbn [self _github_client _owner _repo].
    now destruct (get_branch github_client owner repo branch).
Qed.

End LoadClaims.

(** C4, as the spec states it, fails.  A reader is built with the limit 0
    and nothing is raised.  Its [load_data], even with an iterator that
    rejects a limit below 1 as section 4.3 of the spec asks, has sent the
    commit request and both tree requests when that error is raised; and
    for a commit the client does not know, the load ends with the error of
    the client and the limit is never looked at. *)
Lemma zero_limit_not_rejected_before_requests :
  __init__ Demo.client "owner" "repo" true false 0
    (Some ([], EXCLUDE)) (Some ([], EXCLUDE))
  = Ok (Demo.reader Demo.client true 0 (Some ([], EXCLUDE)) (Some ([], EXCLUDE)))
  /\ load_data Demo.get_file_extension Demo.DEFAULT_FILE_EXTRACTOR Demo.b64decode
       Demo.decode_utf8 Demo.BufferedGitBlobDataIterator 5
       (Demo.reader Demo.client true 0 (Some ([], EXCLUDE)) (Some ([], EXCLUDE)))
       (Some "c0") None Demo.w0
     = Raises (Exn (OtherException "InvalidConcurrency")
                 "buffer_size must be at least 1")
         {| fs := ∅;
            calls := [GetCommit "owner" "repo" "c0"; GetTree "owner" "repo" "t0";
                      GetTree "owner" "repo" "t1"];
            logged := [] |}
  /\ load_data Demo.get_file_extension Demo.DEFAULT_FILE_EXTRACTOR Demo.b64decode
       Demo.decode_utf8 Demo.BufferedGitBlobDataIterator 5
       (Demo.reader Demo.client true 0 (Some ([], EXCLUDE)) (Some ([], EXCLUDE)))
       (Some "c9") None Demo.w0
     = Raises (Demo.api_error "c9")
         {| fs := ∅; calls := [GetCommit "owner" "repo" "c9"]; logged := [] |}.
Proof. repeat split. Qed.

(** The whole pipeline on the demo repository (a.md, docs/readme.md and
    b.png, whose bytes are not UTF-8), without structured extraction and
    with image files excluded: two raw-text documents, after one commit
    request, two tree requests and two blob requests. *)
Example load_data_demo :
  load_data Demo.get_file_extension Demo.DEFAULT_FILE_EXTRACTOR Demo.b64decode
    Demo.decode_utf8 Demo.BufferedGitBlobDataIterator 5
    (Demo.reader Demo.client false 2 (Some ([], EXCLUDE)) (Some (["png"], EXCLUDE)))
    (Some "c0") None Demo.w0
  = Returns [raw_text_document "hi" "b1" "a.md";
             raw_text_document "hi" "b3" "docs/readme.md"]
      {| fs := ∅;
         calls := [GetCommit "owner" "repo" "c0"; GetTree "owner" "repo" "t0";
                   GetTree "owner" "repo" "t1"; GetBlob "owner" "repo" "b1";
                   GetBlob "owner" "repo" "b3"];
         logged := [] |}.
Proof. reflexivity. Qed.

(** A blob with malformed base64 is skipped and the loop goes on. *)
Example malformed_base64_skipped :
  generate_documents_loop Demo.get_file_extension Demo.DEFAULT_FILE_EXTRACTOR
    Demo.b64decode Demo.decode_utf8
    (Demo.reader Demo.client false 5 None None)
    [ret (GitBlobResponseModel.mk "aGk" "base64" "b1", "a.txt");
     ret (GitBlobResponseModel.mk "aGk=" "base64" "b2", "dir/b.txt")]
    [] Demo.w0
  = Returns [raw_text_document "hi" "b2" "dir/b.txt"] Demo.w0.
Proof. reflexivity. Qed.

(* ===================================================================== *)
(** ** Further properties of the filter engine *)
(* ===================================================================== *)

Lemma prefix_iff (p s : string) :
  String.prefix p s = true <-> exists t, s = p +:+ t.
Proof.
  revert s. induction p as [|c p IH]; intros s.
  - split; [intros _; now exists s | intros _; now destruct s].
  - destruct s as [|c' s].
    + split; [discriminate | intros [t Ht]; discriminate Ht].
    + cbn [String.prefix]. destruct (ascii_dec c c') as [->|Hne].
      * rewrite IH. split; intros [t Ht]; exists t.
        -- now rewrite Ht.
        -- now injection Ht.
      * split; [discriminate |]. intros [t Ht]. injection Ht as Hc _. congruence.
Qed.

Lemma any_prefix_related_iff (p : string) (dirs : list string) :
  any_prefix_related p dirs = true <-> exists d, In d dirs /\ prefix_related p d.
Proof.
  unfold any_prefix_related, prefix_related, startswith. rewrite existsb_exists.
  split; intros (d & Hin & H); exists d; (split; [exact Hin |]).
  - apply orb_true_iff in H. now rewrite !prefix_iff in H.
  - apply orb_true_iff. now rewrite !prefix_iff.
Qed.

Lemma str_in_iff (x : string) (xs : list string) : str_in x xs = true <-> In x xs.
Proof.
  unfold str_in. rewrite existsb_exists. split.
  - intros (y & Hin & Heq). apply String.eqb_eq in Heq. now subst.
  - intros Hin. exists x. split; [exact Hin | apply String.eqb_refl].
Qed.

(** X1: with a directory filter configured, [_check_filter_directories]
    never raises.  Under INCLUDE it admits a path exactly when the path
    extends a listed directory or a listed directory extends the path;
    under EXCLUDE it admits exactly the other paths. *)
Theorem check_filter_directories_iff (self : GithubRepositoryReader)
    (dirs : list string) (mode : FilterType) (tree_obj_path : string) :
  _filter_directories self = Some (dirs, mode) ->
  exists allowed,
    _check_filter_directories self tree_obj_path = Ok allowed
    /\ (allowed = true <->
        match mode with
        | INCLUDE => exists d, In d dirs /\ prefix_related tree_obj_path d
        | EXCLUDE => ~ exists d, In d dirs /\ prefix_related tree_obj_path d
        end).
Proof.
  intros H. unfold _check_filter_directories. rewrite H. destruct mode.
  - eexists. split; [reflexivity |].
    rewrite negb_true_iff, <- not_true_iff_false.
    now rewrite any_prefix_related_iff.
  - eexists. split; [reflexivity |]. apply any_prefix_related_iff.
Qed.

Lemma check_filter_directories_iff_witness :
  exists allowed,
    _check_filter_directories
      (Demo.reader Demo.client true 5 (Some (["docs/api"; "src"], INCLUDE)) None)
      "docs" = Ok allowed
    /\ (allowed = true <->
        exists d, In d ["docs/api"; "src"] /\ prefix_related "docs" d).
Proof.
  apply (check_filter_directories_iff
           (Demo.reader Demo.client true 5 (Some (["docs/api"; "src"], INCLUDE)) None)
           ["docs/api"; "src"] INCLUDE "docs").
  reflexivity.
Defined.

(** X2: excluding a nested directory excludes its ancestors too.  Under
    EXCLUDE, a path of which a listed directory is an extension (the path
    "docs" when "docs/api" is listed) is rejected, so the walk does not
    enter it. *)
Theorem exclude_rejects_ancestors (self : GithubRepositoryReader)
    (dirs : list string) (directory tree_obj_path rest : string) :
  _filter_directories self = Some (dirs, EXCLUDE) ->
  In directory dirs ->
  directory = tree_obj_path +:+ rest ->
  _check_filter_directories self tree_obj_path = Ok false.
Proof.
  intros H Hin Heq. unfold _check_filter_directories. rewrite H. f_equal.
  apply negb_false_iff, any_prefix_related_iff.
  exists directory. split; [exact Hin |]. right. now exists rest.
Qed.

Lemma exclude_rejects_ancestors_witness :
  _check_filter_directories
    (Demo.reader Demo.client true 5 (Some (["docs/api"], EXCLUDE)) None) "docs"
  = Ok false.
Proof.
  apply (exclude_rejects_ancestors
           (Demo.reader Demo.client true 5 (Some (["docs/api"], EXCLUDE)) None)
           ["docs/api"] "docs/api" "docs" "/api").
  - reflexivity.
  - simpl; tauto.
  - reflexivity.
Defined.

(** X3: the edge cases of the directory filter.  With the empty list,
    INCLUDE rejects every path and EXCLUDE admits every path.  A listed
    empty string matches every path, and the empty path matches every
    listed directory: in both cases INCLUDE admits and EXCLUDE rejects. *)
Theorem check_filter_directories_edges (self : GithubRepositoryReader)
    (dirs : list string) (mode : FilterType) (tree_obj_path : string) :
  _filter_directories self = Some (dirs, mode) ->
  (dirs = [] ->
   _check_filter_directories self tree_obj_path
   = Ok (match mode with EXCLUDE => true | INCLUDE => false end))
  /\ (In EmptyString dirs ->
      _check_filter_directories self tree_obj_path
      = Ok (match mode with EXCLUDE => false | INCLUDE => true end))
  /\ (dirs <> [] ->
      _check_filter_directories self EmptyString
      = Ok (match mode with EXCLUDE => false | INCLUDE => true end)).
Proof.
  intros H. unfold _check_filter_directories. rewrite H.
  assert (Hempty : In EmptyString dirs -> any_prefix_related tree_obj_path dirs = true).
  { intros Hin. apply any_prefix_related_iff. exists EmptyString.
    split; [exact Hin |]. left. now exists tree_obj_path. }
  assert (Hroot : dirs <> [] -> any_prefix_related EmptyString dirs = true).
  { intros Hne. destruct dirs as [|d dirs]; [contradiction |].
    apply any_prefix_related_iff. exists d. split; [now left |].
    right. now exists d. }
  split; [|split].
  - intros ->. now destruct mode.
  - intros Hin. rewrite (Hempty Hin). now destruct mode.
  - intros Hne. rewrite (Hroot Hne). now destruct mode.
Qed.

Lemma check_filter_directories_edges_witness :
  _check_filter_directories
    (Demo.reader Demo.client true 5 (Some (["docs"], EXCLUDE)) None) ""
  = Ok false.
Proof.
  apply (check_filter_directories_edges
           (Demo.reader Demo.client true 5 (Some (["docs"], EXCLUDE)) None)
           ["docs"] EXCLUDE "src" eq_refl).
  discriminate.
Defined.

(** X4: with an extension filter configured,
    [_check_filter_file_extensions] never raises.  Under INCLUDE it admits a
    path exactly when the extension of the path is in the list, under
    EXCLUDE exactly when it is not; two paths with the same extension get
    the same answer. *)
Theorem check_filter_file_extensions_iff (get_file_extension : string -> string)
    (self : GithubRepositoryReader) (exts : list string) (mode : FilterType)
    (tree_obj_path : string) :
  _filter_file_extensions self = Some (exts, mode) ->
  (exists allowed,
     _check_filter_file_extensions get_file_extension self tree_obj_path = Ok allowed
     /\ (allowed = true <->
         match mode with
         | INCLUDE => In (get_file_extension tree_obj_path) exts
         | EXCLUDE => ~ In (get_file_extension tree_obj_path) exts
         end))
  /\ (forall other_path,
        get_file_extension other_path = get_file_extension tree_obj_path ->
        _check_filter_file_extensions get_file_extension self other_path
        = _check_filter_file_extensions get_file_extension self tree_obj_path).
Proof.
  intros H. unfold _check_filter_file_extensions. rewrite H. split.
  - destruct mode; eexists; (split; [reflexivity |]).
    + rewrite negb_true_iff, <- not_true_iff_false. now rewrite str_in_iff.
    + apply str_in_iff.
  - intros other_path ->. reflexivity.
Qed.

Lemma check_filter_file_extensions_iff_witness :
  exists allowed,
    _check_filter_file_extensions Demo.get_file_extension
      (Demo.reader Demo.client true 5 None (Some (["png"; "jpg"], EXCLUDE)))
      "img/logo.png" = Ok allowed
    /\ (allowed = true <->
        ~ In (Demo.get_file_extension "img/logo.png") ["png"; "jpg"]).
Proof.
  apply (check_filter_file_extensions_iff Demo.get_file_extension
           (Demo.reader Demo.client true 5 None (Some (["png"; "jpg"], EXCLUDE)))
           ["png"; "jpg"] EXCLUDE "img/logo.png").
  reflexivity.
Defined.

(** X5: [_allow_tree_obj] never raises, whichever filters are configured:
    it answers with the directory filter when there is one, else with the
    extension filter when there is one, else with [True]. *)
Theorem allow_tree_obj_total (get_file_extension : string -> string)
    (self : GithubRepositoryReader) (tree_obj_path : string) :
  exists allowed,
    _allow_tree_obj get_file_extension self tree_obj_path = Ok allowed
    /\ allowed
       = match _filter_directories self, _filter_file_extensions self with
         | Some (dirs, INCLUDE), _ => any_prefix_related tree_obj_path dirs
         | Some (dirs, EXCLUDE), _ => negb (any_prefix_related tree_obj_path dirs)
         | None, Some spec => extension_admits get_file_extension spec tree_obj_path
         | None, None => true
         end.
Proof.
  unfold _allow_tree_obj, _check_filter_directories, _check_filter_file_extensions,
    extension_admits.
  destruct (_filter_directories self) as [[dirs []]|];
    [eauto | eauto |].
  destruct (_filter_file_extensions self) as [[exts []]|]; eauto.
Qed.

(* ===================================================================== *)
(** ** Further properties of the tree walker *)
(* ===================================================================== *)

Section WalkInvariant.

Variable get_file_extension : string -> string.
Variable self : GithubRepositoryReader.
Variable T : World -> World -> Prop.
Variable G : blob_and_path -> Prop.

Hypothesis T_trans : forall a b c, T a b -> T b c -> T a c.
Hypothesis T_request :
  forall w tree_sha, T w (log_call w (GetTree (_owner self) (_repo self) tree_sha)).
Hypothesis G_blob :
  forall tree_obj p,
    GitTreeObject.type tree_obj = "blob" ->
    _check_filter_file_extensions get_file_extension self p = Ok true ->
    G (tree_obj, p).

Lemma recurse_tree_loop_respects
    (recurse : string -> string -> Z -> M (list blob_and_path)) cp cd :
  (forall sha p d w, respects T G w (recurse sha p d w)) ->
  forall tree_objs acc w0 w,
    T w0 w -> Forall G acc ->
    respects T G w0
      (recurse_tree_loop get_file_extension recurse self cp cd tree_objs acc w).
Proof.
  intros Hrec tree_objs.
  induction tree_objs as [|tree_obj rest IH]; intros acc w0 w Hw Hacc.
  - cbn. now split.
  - rewrite recurse_tree_loop_cons. cbv zeta.
    destruct (GitTreeObject.type tree_obj =? "tree")%string.
    + unfold bind at 1.
      destruct (_check_filter_directories self _) as [allowed|e]; cbn [lift ret raise];
        [|exact Hw].
      destruct allowed; cbn [negb]; [|now apply IH].
      unfold bind.
      pose proof (Hrec (GitTreeObject.sha tree_obj)
                    (os_path_join cp (GitTreeObject.path tree_obj)) (cd + 1) w) as Hsub.
      destruct (recurse _ _ _ w) as [sub w'|e w'|]; cbn [respects] in Hsub |- *.
      * destruct Hsub as [Hw' Hsub]. apply IH; [now apply (T_trans _ w) |].
        apply Forall_app. now split.
      * now apply (T_trans _ w).
      * exact I.
    + destruct (GitTreeObject.type tree_obj =? "blob")%string eqn:Eblob;
        [|now apply IH].
      apply String.eqb_eq in Eblob. unfold bind.
      destruct (_check_filter_file_extensions get_file_extension self _)
        as [allowed|e] eqn:Echeck; cbn [lift ret raise]; [|exact Hw].
      destruct allowed; cbn [negb]; [|now apply IH].
      apply IH; [exact Hw |]. apply Forall_app. split; [exact Hacc |].
      constructor; [|constructor]. now apply G_blob.
Qed.

Lemma recurse_tree_respects fuel :
  forall tree_sha cp cd w,
    respects T G w (_recurse_tree get_file_extension fuel self tree_sha cp cd w).
Proof.
  induction fuel as [|fuel IH]; intros tree_sha cp cd w; [exact I |].
  cbn [_recurse_tree]. unfold bind, request.
  destruct (get_tree _ _ _ tree_sha) as [tree_data|e]; cbn [lift ret raise].
  - apply recurse_tree_loop_respects; [exact IH | apply T_request | constructor].
  - apply T_request.
Qed.

End WalkInvariant.

(** X6: the walk returns only blobs the extension filter admits: every
    pair of its result holds a child of type "blob" and a path the
    configured extension filter accepts. *)
Theorem walk_returns_admitted_blobs (get_file_extension : string -> string)
    (self : GithubRepositoryReader) (spec : list string * FilterType)
    (fuel : nat) (tree_sha current_path : string) (current_depth : Z)
    (w w' : World) (blobs_and_paths : list blob_and_path) :
  _filter_file_extensions self = Some spec ->
  _recurse_tree get_file_extension fuel self tree_sha current_path current_depth w
  = Returns blobs_and_paths w' ->
  Forall (fun bp : blob_and_path =>
            GitTreeObject.type bp.1 = "blob"
            /\ extension_admits get_file_extension spec bp.2 = true)
         blobs_and_paths.
Proof.
  intros Hspec Hwalk.
  pose proof (recurse_tree_respects get_file_extension self (fun _ _ => True)
                (fun bp : blob_and_path =>
                   GitTreeObject.type bp.1 = "blob"
                   /\ extension_admits get_file_extension spec bp.2 = true)
                (fun _ _ _ _ _ => I) (fun _ _ => I)) as Hinv.
  specialize (Hinv ltac:(intros tree_obj p Hblob Hcheck; split; [exact Hblob |];
                         rewrite (check_filter_file_extensions_spec get_file_extension
                                    self spec p Hspec) in Hcheck;
                         now injection Hcheck)
                   fuel tree_sha current_path current_depth w).
  rewrite Hwalk in Hinv. apply Hinv.
Qed.

Lemma walk_returns_admitted_blobs_witness :
  Forall (fun bp : blob_and_path =>
            GitTreeObject.type bp.1 = "blob"
            /\ extension_admits Demo.get_file_extension (["png"], EXCLUDE) bp.2 = true)
         [(Demo.obj "a.md" "blob" "b1", "a.md");
          (Demo.obj "readme.md" "blob" "b3", "docs/readme.md")].
Proof.
  apply (walk_returns_admitted_blobs Demo.get_file_extension
           (Demo.reader Demo.client true 5 (Some ([], EXCLUDE)) (Some (["png"], EXCLUDE)))
           (["png"], EXCLUDE) 5 "t0" "" 0 Demo.w0
           {| fs := ∅;
              calls := [GetTree "owner" "repo" "t0"; GetTree "owner" "repo" "t1"];
              logged := [] |}).
  - reflexivity.
  - reflexivity.
Defined.

Lemma only_tree_requests_trans (owner repo : string) (a b c : World) :
  only_tree_requests owner repo a b -> only_tree_requests owner repo b c ->
  only_tree_requests owner repo a c.
Proof.
  intros (Hf1 & Hl1 & r1 & Hc1 & Hr1) (Hf2 & Hl2 & r2 & Hc2 & Hr2).
  split; [congruence |]. split; [congruence |].
  exists (r1 ++ r2)%list. split.
  - rewrite Hc2, Hc1. now rewrite <- app_assoc.
  - apply Forall_app. now split.
Qed.

(** X7: whatever its outcome, the walk leaves the file system and the
    error log as they were, and what it adds to the request log are
    requests for trees of the reader's repository, nothing else. *)
Theorem walk_only_requests_trees (get_file_extension : string -> string)
    (self : GithubRepositoryReader) (fuel : nat) (tree_sha current_path : string)
    (current_depth : Z) (w w' : World) :
  final_world
    (_recurse_tree get_file_extension fuel self tree_sha current_path current_depth w)
  = Some w' ->
  only_tree_requests (_owner self) (_repo self) w w'.
Proof.
  intros Hfinal.
  pose proof (recurse_tree_respects get_file_extension self
                (only_tree_requests (_owner self) (_repo self)) (fun _ => True)
                (only_tree_requests_trans _ _)) as Hinv.
  specialize (Hinv ltac:(intros w1 sha; split; [reflexivity |];
                         split; [reflexivity |];
                         exists [GetTree (_owner self) (_repo self) sha];
                         split; [reflexivity |];
                         constructor; [now exists sha | constructor])
                   (fun _ _ _ _ => I)
                   fuel tree_sha current_path current_depth w).
  destruct (_recurse_tree _ _ _ _ _ _ w) as [l w1|e w1|]; cbn in Hfinal, Hinv.
  - injection Hfinal as <-. apply Hinv.
  - injection Hfinal as <-. exact Hinv.
  - discriminate Hfinal.
Qed.

Lemma walk_only_requests_trees_witness :
  only_tree_requests "owner" "repo" Demo.w0
    {| fs := ∅;
       calls := [GetTree "owner" "repo" "t0"; GetTree "owner" "repo" "t1"];
       logged := [] |}.
Proof.
  apply (walk_only_requests_trees Demo.get_file_extension
           (Demo.reader Demo.client true 5 (Some ([], EXCLUDE)) (Some (["png"], EXCLUDE)))
           5 "t0" "" 0 Demo.w0).
  reflexivity.
Defined.

Section WalkCompletes.

Variable get_file_extension : string -> string.
Variable self : GithubRepositoryReader.
Variable dir_spec ext_spec : list string * FilterType.
Hypothesis Hdirs : _filter_directories self = Some dir_spec.
Hypothesis Hexts : _filter_file_extensions self = Some ext_spec.

Lemma recurse_tree_loop_returns
    (recurse : string -> string -> Z -> M (list blob_and_path)) cp cd tree_objs :
  Forall (fun tree_obj =>
            GitTreeObject.type tree_obj = "tree" ->
            forall p d w, exists l w',
              recurse (GitTreeObject.sha tree_obj) p d w = Returns l w')
         tree_objs ->
  forall acc w, exists l w',
    recurse_tree_loop get_file_extension recurse self cp cd tree_objs acc w
    = Returns l w'.
Proof.
  induction tree_objs as [|tree_obj rest IH]; intros Hsub acc w.
  - now exists acc, w.
  - apply Forall_cons in Hsub as [Hobj Hrest].
    rewrite recurse_tree_loop_cons. cbv zeta.
    destruct (GitTreeObject.type tree_obj =? "tree")%string eqn:Etree.
    + apply String.eqb_eq in Etree.
      destruct (check_filter_directories_cases self
                  (os_path_join cp (GitTreeObject.path tree_obj)))
        as [[b ->]|[Hnone _]]; [|congruence].
      unfold bind at 1. unfold lift, ret.
      destruct b; cbn [negb]; [|now apply IH].
      unfold bind.
      destruct (Hobj Etree (os_path_join cp (GitTreeObject.path tree_obj)) (cd + 1) w)
        as (sub & w' & ->).
      now apply IH.
    + destruct (GitTreeObject.type tree_obj =? "blob")%string; [|now apply IH].
      destruct (check_filter_file_extensions_cases get_file_extension self
                  (os_path_join cp (GitTreeObject.path tree_obj)))
        as [[b ->]|[Hnone _]]; [|congruence].
      unfold bind, lift, ret. destruct b; cbn [negb]; now apply IH.
Qed.

Lemma recurse_tree_returns fuel :
  forall tree_sha cp cd w,
    tree_resolves self fuel tree_sha = true ->
    exists l w',
      _recurse_tree get_file_extension fuel self tree_sha cp cd w = Returns l w'.
Proof.
  induction fuel as [|fuel IH]; intros tree_sha cp cd w Hres; [discriminate Hres |].
  cbn [tree_resolves] in Hres. cbn [_recurse_tree]. unfold bind, request.
  destruct (get_tree _ _ _ tree_sha) as [tree_data|e]; [|discriminate Hres].
  cbn [lift ret].
  apply recurse_tree_loop_returns.
  apply Forall_forall. intros tree_obj Hin Htree p d w'.
  apply IH. rewrite forallb_forall in Hres. specialize (Hres tree_obj).
  rewrite Htree in Hres. apply Hres. now apply list_elem_of_In.
Qed.

End WalkCompletes.

(** X8: with both filters configured, on a tree the client serves in full
    within the depth bound, the walk ends and returns a list: it neither
    raises nor runs out of fuel. *)
Theorem walk_completes (get_file_extension : string -> string)
    (self : GithubRepositoryReader) (dir_spec ext_spec : list string * FilterType)
    (fuel : nat) (tree_sha current_path : string) (current_depth : Z) (w : World) :
  _filter_directories self = Some dir_spec ->
  _filter_file_extensions self = Some ext_spec ->
  tree_resolves self fuel tree_sha = true ->
  exists blobs_and_paths w',
    _recurse_tree get_file_extension fuel self tree_sha current_path current_depth w
    = Returns blobs_and_paths w'.
Proof.
  intros Hdirs Hexts Hres.
  now apply (recurse_tree_returns get_file_extension self dir_spec ext_spec).
Qed.

Lemma walk_completes_witness :
  exists blobs_and_paths w',
    _recurse_tree Demo.get_file_extension 2
      (Demo.reader Demo.client true 5 (Some (["docs"], INCLUDE)) (Some (["md"], INCLUDE)))
      "t0" "" 0 Demo.w0
    = Returns blobs_and_paths w'.
Proof.
  apply (walk_completes Demo.get_file_extension
           (Demo.reader Demo.client true 5 (Some (["docs"], INCLUDE))
              (Some (["md"], INCLUDE)))
           (["docs"], INCLUDE) (["md"], INCLUDE) 2 "t0" "" 0 Demo.w0).
  - reflexivity.
  - reflexivity.
  - reflexivity.
Defined.

Section WalkFuel.

Variable get_file_extension : string -> string.
Variable self : GithubRepositoryReader.

Lemma recurse_tree_loop_more_fuel
    (rec1 rec2 : string -> string -> Z -> M (list blob_and_path)) cp cd :
  (forall sha p d w, rec1 sha p d w <> Diverges -> rec2 sha p d w = rec1 sha p d w) ->
  forall tree_objs acc w,
    recurse_tree_loop get_file_extension rec1 self cp cd tree_objs acc w <> Diverges ->
    recurse_tree_loop get_file_extension rec2 self cp cd tree_objs acc w
    = recurse_tree_loop get_file_extension rec1 self cp cd tree_objs acc w.
Proof.
  intros Hrec tree_objs.
  induction tree_objs as [|tree_obj rest IH]; intros acc w; [reflexivity |].
  rewrite !recurse_tree_loop_cons. cbv zeta.
  destruct (GitTreeObject.type tree_obj =? "tree")%string.
  - unfold bind.
    destruct (_check_filter_directories self _) as [allowed|e]; cbn [lift ret raise];
      [|reflexivity].
    destruct allowed; cbn [negb]; [|apply IH].
    pose proof (Hrec (GitTreeObject.sha tree_obj)
                  (os_path_join cp (GitTreeObject.path tree_obj)) (cd + 1) w) as Hsub.
    destruct (rec1 _ _ _ w) as [sub w'|e w'|].
    + rewrite Hsub by discriminate. apply IH.
    + now rewrite Hsub by discriminate.
    + intros Hdiv. now contradiction Hdiv.
  - destruct (GitTreeObject.type tree_obj =? "blob")%string; [|apply IH].
    unfold bind.
    destruct (_check_filter_file_extensions get_file_extension self _)
      as [allowed|e]; cbn [lift ret raise]; [|reflexivity].
    destruct allowed; cbn [negb]; apply IH.
Qed.

Lemma recurse_tree_S fuel tree_sha cp cd :
  _recurse_tree get_file_extension (S fuel) self tree_sha cp cd
  = (tree_data <- request (GetTree (_owner self) (_repo self) tree_sha)
                    (get_tree (_github_client self) (_owner self) (_repo self)
                       tree_sha) ;;
     recurse_tree_loop get_file_extension
       (_recurse_tree get_file_extension fuel self) self cp cd
       (GitTreeResponseModel.tree tree_data) []).
Proof. reflexivity. Qed.

Lemma recurse_tree_one_more fuel :
  forall tree_sha cp cd w,
    _recurse_tree get_file_extension fuel self tree_sha cp cd w <> Diverges ->
    _recurse_tree get_file_extension (S fuel) self tree_sha cp cd w
    = _recurse_tree get_file_extension fuel self tree_sha cp cd w.
Proof.
  induction fuel as [|fuel IH]; intros tree_sha cp cd w Hend.
  - now contradiction Hend.
  - rewrite !recurse_tree_S in *. unfold bind in *.
    destruct (request _ _ w) as [tree_data w'|e w'|]; try reflexivity.
    apply recurse_tree_loop_more_fuel; [|exact Hend].
    intros sha p d w1 H. now apply IH.
Qed.

End WalkFuel.

(** X9: the depth bound of the walk does not shape its result: once a walk
    ends within some bound, with a list or with an error, every larger
    bound gives the same list or error and the same final world. *)
Theorem walk_fuel_irrelevant (get_file_extension : string -> string)
    (self : GithubRepositoryReader) (fuel more : nat)
    (tree_sha current_path : string) (current_depth : Z) (w : World) :
  _recurse_tree get_file_extension fuel self tree_sha current_path current_depth w
  <> Diverges ->
  _recurse_tree get_file_extension (more + fuel) self tree_sha current_path
    current_depth w
  = _recurse_tree get_file_extension fuel self tree_sha current_path current_depth w.
Proof.
  intros Hend. induction more as [|more IH]; [reflexivity |].
  cbn [Nat.add]. rewrite recurse_tree_one_more; [exact IH |].
  now rewrite IH.
Qed.

Lemma walk_fuel_irrelevant_witness :
  _recurse_tree Demo.get_file_extension (7 + 2)
    (Demo.reader Demo.client true 5 (Some ([], EXCLUDE)) (Some ([], EXCLUDE)))
    "t0" "" 0 Demo.w0
  = _recurse_tree Demo.get_file_extension 2
      (Demo.reader Demo.client true 5 (Some ([], EXCLUDE)) (Some ([], EXCLUDE)))
      "t0" "" 0 Demo.w0.
Proof.
  apply (walk_fuel_irrelevant Demo.get_file_extension
           (Demo.reader Demo.client true 5 (Some ([], EXCLUDE)) (Some ([], EXCLUDE)))
           2 7 "t0" "" 0 Demo.w0).
  discriminate.
Defined.

Section WalkPruning.

Variable get_file_extension : string -> string.
Variable self : GithubRepositoryReader.
Variable recurse : string -> string -> Z -> M (list blob_and_path).

Lemma recurse_tree_loop_pruned (spec : list string * FilterType) cp cd tree_objs :
  _filter_file_extensions self = Some spec ->
  Forall (fun tree_obj =>
            GitTreeObject.type tree_obj = "tree" ->
            _check_filter_directories self
              (os_path_join cp (GitTreeObject.path tree_obj)) = Ok false)
         tree_objs ->
  forall acc w,
    recurse_tree_loop get_file_extension recurse self cp cd tree_objs acc w
    = Returns (acc ++ admitted_blobs get_file_extension spec cp tree_objs)%list w.
Proof.
  intros Hspec.
  induction tree_objs as [|tree_obj rest IH]; intros Hrej acc w.
  - cbn. now rewrite app_nil_r.
  - apply Forall_cons in Hrej as [Hobj Hrest].
    rewrite recurse_tree_loop_cons. cbv zeta.
    unfold admitted_blobs. cbn [List.filter].
    destruct (GitTreeObject.type tree_obj =? "tree")%string eqn:Etree.
    + apply String.eqb_eq in Etree. rewrite (Hobj Etree).
      rewrite Etree. cbn [String.eqb Ascii.eqb Bool.eqb andb].
      unfold bind, lift, ret. cbn [negb]. now apply IH.
    + destruct (GitTreeObject.type tree_obj =? "blob")%string;
        cbn [andb]; [|now apply IH].
      rewrite (check_filter_file_extensions_spec get_file_extension self spec)
        by exact Hspec.
      unfold bind, lift, ret.
      destruct (extension_admits get_file_extension spec _); cbn [negb].
      * rewrite (IH Hrest). cbn [map]. now rewrite <- app_assoc.
      * now apply IH.
Qed.

Lemma recurse_tree_loop_other_types cp cd tree_objs :
  Forall other_type tree_objs ->
  forall acc w,
    recurse_tree_loop get_file_extension recurse self cp cd tree_objs acc w
    = Returns acc w.
Proof.
  induction tree_objs as [|tree_obj rest IH]; intros Hother acc w; [reflexivity |].
  apply Forall_cons in Hother as [[Htree Hblob] Hrest].
  rewrite recurse_tree_loop_cons. cbv zeta.
  apply String.eqb_neq in Htree, Hblob. rewrite Htree, Hblob. now apply IH.
Qed.

End WalkPruning.

(** X10: a subdirectory the directory filter rejects is not requested, and
    the directory filter is never applied to blobs.  When every
    subdirectory child of a tree is rejected (or the tree has none), the
    walk sends the one request for that tree and returns its blob children
    that the extension filter admits, in the order of the tree, each with
    its name joined to the current path. *)
Theorem walk_prunes_rejected_directories (get_file_extension : string -> string)
    (self : GithubRepositoryReader) (spec : list string * FilterType)
    (fuel : nat) (tree_sha current_path : string) (current_depth : Z)
    (tree_data : GitTreeResponseModel.t) (w : World) :
  get_tree (_github_client self) (_owner self) (_repo self) tree_sha = Ok tree_data ->
  _filter_file_extensions self = Some spec ->
  Forall (fun tree_obj =>
            GitTreeObject.type tree_obj = "tree" ->
            _check_filter_directories self
              (os_path_join current_path (GitTreeObject.path tree_obj)) = Ok false)
         (GitTreeResponseModel.tree tree_data) ->
  _recurse_tree get_file_extension (S fuel) self tree_sha current_path current_depth w
  = Returns
      (admitted_blobs get_file_extension spec current_path
         (GitTreeResponseModel.tree tree_data))
      (log_call w (GetTree (_owner self) (_repo self) tree_sha)).
Proof.
  intros Hget Hspec Hrej.
  cbn [_recurse_tree]. unfold bind, request. rewrite Hget. cbn [lift ret].
  now rewrite (recurse_tree_loop_pruned get_file_extension self _ spec).
Qed.

Lemma walk_prunes_rejected_directories_witness :
  _recurse_tree Demo.get_file_extension 1
    (Demo.reader Demo.client true 5 (Some (["docs"], EXCLUDE)) (Some (["png"], EXCLUDE)))
    "t0" "" 0 Demo.w0
  = Returns [(Demo.obj "a.md" "blob" "b1", "a.md")]
      (log_call Demo.w0 (GetTree "owner" "repo" "t0")).
Proof.
  apply (walk_prunes_rejected_directories Demo.get_file_extension
           (Demo.reader Demo.client true 5 (Some (["docs"], EXCLUDE))
              (Some (["png"], EXCLUDE)))
           (["png"], EXCLUDE) 0 "t0" "" 0
           (GitTreeResponseModel.mk "t0"
              [Demo.obj "a.md" "blob" "b1"; Demo.obj "docs" "tree" "t1";
               Demo.obj "b.png" "blob" "b2"])
           Demo.w0).
  - reflexivity.
  - reflexivity.
  - repeat (constructor; [intros H; try discriminate H; reflexivity |]).
    constructor.
Defined.

(** X11: children that are neither subdirectories nor blobs are passed
    over without a filter check.  A tree that has only such children, or
    none at all, gives the empty list after its one request, whether or
    not filters are configured. *)
Theorem walk_ignores_other_types (get_file_extension : string -> string)
    (self : GithubRepositoryReader) (fuel : nat) (tree_sha current_path : string)
    (current_depth : Z) (tree_data : GitTreeResponseModel.t) (w : World) :
  get_tree (_github_client self) (_owner self) (_repo self) tree_sha = Ok tree_data ->
  Forall other_type (GitTreeResponseModel.tree tree_data) ->
  _recurse_tree get_file_extension (S fuel) self tree_sha current_path current_depth w
  = Returns [] (log_call w (GetTree (_owner self) (_repo self) tree_sha)).
Proof.
  intros Hget Hother.
  cbn [_recurse_tree]. unfold bind, request. rewrite Hget. cbn [lift ret].
  now apply recurse_tree_loop_other_types.
Qed.

Lemma walk_ignores_other_types_witness :
  _recurse_tree Demo.get_file_extension 1
    (Demo.reader
       (mkClient (fun _ _ _ => Ok "t0") (fun _ _ _ => Ok "t0")
          (fun _ _ _ =>
             Ok (GitTreeResponseModel.mk "t0" [Demo.obj "vendor/lib" "commit" "s1"]))
          (fun _ _ blob_sha => Ok (GitBlobResponseModel.mk "aGk=" "base64" blob_sha)))
       true 5 None None)
    "t0" "" 0 Demo.w0
  = Returns [] (log_call Demo.w0 (GetTree "owner" "repo" "t0")).
Proof.
  apply (walk_ignores_other_types Demo.get_file_extension
           (Demo.reader
              (mkClient (fun _ _ _ => Ok "t0") (fun _ _ _ => Ok "t0")
                 (fun _ _ _ =>
                    Ok (GitTreeResponseModel.mk "t0"
                          [Demo.obj "vendor/lib" "commit" "s1"]))
                 (fun _ _ blob_sha =>
                    Ok (GitBlobResponseModel.mk "aGk=" "base64" blob_sha)))
              true 5 None None)
           0 "t0" "" 0
           (GitTreeResponseModel.mk "t0" [Demo.obj "vendor/lib" "commit" "s1"])
           Demo.w0).
  - reflexivity.
  - constructor; [|constructor]. split; discriminate.
Defined.

(* ===================================================================== *)
(** ** Further properties of the document synthesizer *)
(* ===================================================================== *)

Section LoopProperties.

Variable get_file_extension : string -> string.
Variable DEFAULT_FILE_EXTRACTOR : gmap string Parser.
Variable b64decode : string -> result bytes.
Variable decode_utf8 : bytes -> result string.

Abbreviation loop_ :=
  (generate_documents_loop get_file_extension DEFAULT_FILE_EXTRACTOR b64decode
     decode_utf8).

(** A step of the loop whose [b64decode] fails. *)
Lemma generate_documents_loop_b64_error (self : GithubRepositoryReader)
    (anext : M blob_data_and_path) (rest : list (M blob_data_and_path))
    (documents : list Document) (blob_data : GitBlobResponseModel.t)
    (full_path : string) (e : exn) (w w1 : World) :
  anext w = Returns (blob_data, full_path) w1 ->
  GitBlobResponseModel.encoding blob_data = "base64" ->
  b64decode (GitBlobResponseModel.content blob_data) = Raise e ->
  loop_ self (anext :: rest) documents w
  = if is_BinasciiError e then loop_ self rest documents w1 else Raises e w1.
Proof.
  intros Hnext Henc Hdec. apply String.eqb_eq in Henc.
  cbn [generate_documents_loop]. unfold bind at 1. rewrite Hnext.
  cbn [fst snd]. unfold bind at 1. rewrite Henc. cbn [assert_ ret].
  unfold bind at 1. unfold try_except at 1. unfold bind at 1.
  rewrite Hdec. cbn [lift raise]. now destruct (is_BinasciiError e).
Qed.

(** What a step of the loop can do: pass on the failure of the iterator,
    or, with the pair the iterator yields, raise, go on with the same
    documents, or go on with one document more; past the iterator's step
    the file system is not changed. *)
Lemma generate_documents_loop_step (self : GithubRepositoryReader)
    (anext : M blob_data_and_path) (rest : list (M blob_data_and_path))
    (documents : list Document) (w : World) :
  match anext w with
  | Diverges => loop_ self (anext :: rest) documents w = Diverges
  | Raises e w1 => loop_ self (anext :: rest) documents w = Raises e w1
  | Returns _ w1 =>
      (exists e w2,
         fs w2 = fs w1 /\ loop_ self (anext :: rest) documents w = Raises e w2)
      \/ (exists w2,
         fs w2 = fs w1
         /\ loop_ self (anext :: rest) documents w = loop_ self rest documents w2)
      \/ (exists document w2,
         fs w2 = fs w1
         /\ loop_ self (anext :: rest) documents w
            = loop_ self rest (documents ++ [document]) w2)
  end.
Proof.
  destruct (anext w) as [[blob_data full_path] w1|e w1|] eqn:Hnext.
  - destruct (String.eqb_spec (GitBlobResponseModel.encoding blob_data) "base64")
      as [Henc|Henc].
    + destruct (b64decode (GitBlobResponseModel.content blob_data))
        as [decoded_bytes|e] eqn:Hdec.
      * rewrite (generate_documents_loop_decoded get_file_extension
                   DEFAULT_FILE_EXTRACTOR b64decode decode_utf8 self anext rest
                   documents blob_data full_path decoded_bytes w w1 Hnext Henc Hdec).
        set (parse := if _use_parser self
                      then _parse_supported_file get_file_extension
                             DEFAULT_FILE_EXTRACTOR self full_path decoded_bytes
                             (GitBlobResponseModel.sha blob_data) full_path
                      else ret None).
        assert (Hparse : exists w2, final_world (parse w1) = Some w2 /\ fs w2 = fs w1).
        { subst parse. destruct (_use_parser self);
            [apply parse_supported_file_keeps_fs | now exists w1]. }
        destruct Hparse as (w2 & Hfinal & Hfs).
        destruct (parse w1) as [[document|] w2'|e w2'|]; cbn in Hfinal;
          try discriminate Hfinal; injection Hfinal as ->.
        -- right. right. now exists document, w2.
        -- destruct (decode_utf8 decoded_bytes) as [decoded_text|e].
           ++ right. right. eexists. now exists w2.
           ++ destruct (is_UnicodeDecodeError e).
              ** right. left. now exists w2.
              ** left. now exists e, w2.
        -- left. now exists e, w2.
      * rewrite (generate_documents_loop_b64_error self anext rest documents
                   blob_data full_path e w w1 Hnext Henc Hdec).
        destruct (is_BinasciiError e).
        -- right. left. now exists w1.
        -- left. now exists e, w1.
    + left. eexists. exists w1. split; [reflexivity |].
      exact (generate_documents_loop_assert get_file_extension
               DEFAULT_FILE_EXTRACTOR b64decode decode_utf8 self anext rest
               documents blob_data full_path w w1 Hnext Henc).
  - cbn [generate_documents_loop]. unfold bind at 1. now rewrite Hnext.
  - cbn [generate_documents_loop]. unfold bind at 1. now rewrite Hnext.
Qed.

Lemma generate_documents_loop_appends (self : GithubRepositoryReader)
    (buffered_iterator : list (M blob_data_and_path)) :
  forall documents w documents' w',
    loop_ self buffered_iterator documents w = Returns documents' w' ->
    exists new,
      documents' = (documents ++ new)%list
      /\ (length new <= length buffered_iterator)%nat.
Proof.
  induction buffered_iterator as [|anext rest IH]; intros documents w documents' w' H.
  - injection H as <- _. exists []. split; [now rewrite app_nil_r | reflexivity].
  - pose proof (generate_documents_loop_step self anext rest documents w) as Hstep.
    destruct (anext w) as [item w1|e w1|].
    + destruct Hstep as [(e & w2 & _ & Heq)|[(w2 & _ & Heq)|(d & w2 & _ & Heq)]];
        rewrite Heq in H.
      * discriminate H.
      * apply IH in H as (new & -> & Hlen). exists new. split; [reflexivity |].
        cbn [length]. lia.
      * apply IH in H as (new & -> & Hlen). exists (d :: new).
        split; [now rewrite <- app_assoc |]. cbn [length]. lia.
    + rewrite Hstep in H. discriminate H.
    + rewrite Hstep in H. discriminate H.
Qed.

Lemma generate_documents_loop_keeps_fs (self : GithubRepositoryReader)
    (buffered_iterator : list (M blob_data_and_path)) :
  Forall keeps_fs buffered_iterator ->
  forall documents w w',
    final_world (loop_ self buffered_iterator documents w) = Some w' ->
    fs w' = fs w.
Proof.
  induction buffered_iterator as [|anext rest IH]; intros Hsteps documents w w' H.
  - now injection H as <-.
  - apply Forall_cons in Hsteps as [Hanext Hrest].
    pose proof (generate_documents_loop_step self anext rest documents w) as Hstep.
    pose proof (Hanext w) as Hfs1.
    destruct (anext w) as [item w1|e w1|]; cbn [final_world] in Hfs1.
    + specialize (Hfs1 w1 eq_refl).
      destruct Hstep as [(e & w2 & Hfs & Heq)|[(w2 & Hfs & Heq)|(d & w2 & Hfs & Heq)]];
        rewrite Heq in H.
      * injection H as <-. congruence.
      * apply (IH Hrest) in H. congruence.
      * apply (IH Hrest) in H. congruence.
    + rewrite Hstep in H. injection H as <-. now apply Hfs1.
    + rewrite Hstep in H. discriminate H.
Qed.

End LoopProperties.

Section SynthesisExtras.

Variable get_file_extension : string -> string.
Variable DEFAULT_FILE_EXTRACTOR : gmap string Parser.
Variable b64decode : string -> result bytes.
Variable decode_utf8 : bytes -> result string.

Abbreviation synthesize :=
  (generate_documents_loop get_file_extension DEFAULT_FILE_EXTRACTOR b64decode
     decode_utf8).

(** X12: the loop of [_generate_documents] only appends: when it returns,
    the documents it was given are still there, in front and in order, and
    at most one document per yielded blob has been added. *)
Theorem documents_only_appended (self : GithubRepositoryReader)
    (buffered_iterator : list (M blob_data_and_path))
    (documents documents' : list Document) (w w' : World) :
  synthesize self buffered_iterator documents w = Returns documents' w' ->
  exists new,
    documents' = (documents ++ new)%list
    /\ (length new <= length buffered_iterator)%nat.
Proof. apply generate_documents_loop_appends. Qed.

(** X13: no temporary file outlives the loop of [_generate_documents]: if
    the steps of the iterator leave the file system alone, the file system
    after the loop is the one before it, whether the loop returns or
    raises. *)
Theorem synthesis_keeps_file_system (self : GithubRepositoryReader)
    (buffered_iterator : list (M blob_data_and_path))
    (documents : list Document) (w w' : World) :
  Forall keeps_fs buffered_iterator ->
  final_world (synthesize self buffered_iterator documents w) = Some w' ->
  fs w' = fs w.
Proof. intros Hsteps. now apply generate_documents_loop_keeps_fs. Qed.

(** X14: a blob whose content [b64decode] rejects with [binascii.Error] is
    skipped and the loop goes on with the documents it has; any other
    error of [b64decode] is not caught and ends the loop. *)
Theorem base64_errors (self : GithubRepositoryReader)
    (anext : M blob_data_and_path) (rest : list (M blob_data_and_path))
    (documents : list Document) (blob_data : GitBlobResponseModel.t)
    (full_path : string) (e : exn) (w w1 : World) :
  anext w = Returns (blob_data, full_path) w1 ->
  GitBlobResponseModel.encoding blob_data = "base64" ->
  b64decode (GitBlobResponseModel.content blob_data) = Raise e ->
  synthesize self (anext :: rest) documents w
  = if is_BinasciiError e then synthesize self rest documents w1 else Raises e w1.
Proof. apply generate_documents_loop_b64_error. Qed.

(** X15: an error of [init_parser] is not caught: with structured
    extraction enabled and a parser registered for the extension, it ends
    the loop, before any temporary file is made, unlike an error of
    [parse_file]. *)
Theorem init_parser_failure_is_fatal (self : GithubRepositoryReader)
    (anext : M blob_data_and_path) (rest : list (M blob_data_and_path))
    (documents : list Document) (blob_data : GitBlobResponseModel.t)
    (full_path : string) (decoded_bytes : bytes) (parser : Parser) (e : exn)
    (w w1 : World) :
  anext w = Returns (blob_data, full_path) w1 ->
  GitBlobResponseModel.encoding blob_data = "base64" ->
  b64decode (GitBlobResponseModel.content blob_data) = Ok decoded_bytes ->
  _use_parser self = true ->
  DEFAULT_FILE_EXTRACTOR !! get_file_extension full_path = Some parser ->
  init_parser parser = Raise e ->
  synthesize self (anext :: rest) documents w = Raises e w1.
Proof.
  intros Hnext Henc Hdec Huse Hparser Hinit.
  rewrite (generate_documents_loop_decoded get_file_extension DEFAULT_FILE_EXTRACTOR
             b64decode decode_utf8 self anext rest documents blob_data full_path
             decoded_bytes w w1 Hnext Henc Hdec).
  rewrite Huse.
  now rewrite (parse_supported_file_init_fails get_file_extension
                 DEFAULT_FILE_EXTRACTOR self _ _ _ _ parser e w1 Hparser Hinit).
Qed.

(** X16: when no parser is registered for the extension of the path, or
    structured extraction is off, the blob takes the raw-text path in an
    unchanged world: its UTF-8 text becomes a document, a
    [UnicodeDecodeError] skips it, and any other error of the decoding ends
    the loop. *)
Theorem raw_text_path (self : GithubRepositoryReader)
    (anext : M blob_data_and_path) (rest : list (M blob_data_and_path))
    (documents : list Document) (blob_data : GitBlobResponseModel.t)
    (full_path : string) (decoded_bytes : bytes) (w w1 : World) :
  anext w = Returns (blob_data, full_path) w1 ->
  GitBlobResponseModel.encoding blob_data = "base64" ->
  b64decode (GitBlobResponseModel.content blob_data) = Ok decoded_bytes ->
  _use_parser self = false
  \/ DEFAULT_FILE_EXTRACTOR !! get_file_extension full_path = None ->
  synthesize self (anext :: rest) documents w
  = match decode_utf8 decoded_bytes with
    | Ok decoded_text =>
        synthesize self rest
          (documents ++
           [raw_text_document decoded_text (GitBlobResponseModel.sha blob_data)
              full_path]) w1
    | Raise e =>
        if is_UnicodeDecodeError e then synthesize self rest documents w1
        else Raises e w1
    end.
Proof.
  intros Hnext Henc Hdec Hraw.
  rewrite (generate_documents_loop_decoded get_file_extension DEFAULT_FILE_EXTRACTOR
             b64decode decode_utf8 self anext rest documents blob_data full_path
             decoded_bytes w w1 Hnext Henc Hdec).
  destruct (_use_parser self) eqn:Huse.
  - destruct Hraw as [Hraw|Hraw]; [discriminate Hraw |].
    now rewrite parse_supported_file_no_parser by exact Hraw.
  - reflexivity.
Qed.

(** X17: the parser's failures are swallowed only when they are
    [Exception]s.  An exception of another kind ([KeyboardInterrupt],
    [SystemExit]) raised by [parse_file] leaves [_parse_supported_file] and
    the loop; nothing is logged and the temporary file is gone. *)
Theorem parser_base_exception_propagates (self : GithubRepositoryReader)
    (anext : M blob_data_and_path) (rest : list (M blob_data_and_path))
    (documents : list Document) (blob_data : GitBlobResponseModel.t)
    (full_path : string) (decoded_bytes : bytes) (parser : Parser) (e : exn)
    (w w1 : World) :
  anext w = Returns (blob_data, full_path) w1 ->
  GitBlobResponseModel.encoding blob_data = "base64" ->
  b64decode (GitBlobResponseModel.content blob_data) = Ok decoded_bytes ->
  _use_parser self = true ->
  DEFAULT_FILE_EXTRACTOR !! get_file_extension full_path = Some parser ->
  init_parser parser = Ok tt ->
  parse_file parser
    (fs_at_parse (fs w1) (get_file_extension full_path) decoded_bytes)
    (tmpfile_name (fs w1) (get_file_extension full_path)) = Raise e ->
  is_Exception e = false ->
  synthesize self (anext :: rest) documents w = Raises e w1.
Proof.
  intros Hnext Henc Hdec Huse Hparser Hinit Hparse He.
  rewrite (generate_documents_loop_decoded get_file_extension DEFAULT_FILE_EXTRACTOR
             b64decode decode_utf8 self anext rest documents blob_data full_path
             decoded_bytes w w1 Hnext Henc Hdec).
  rewrite Huse.
  rewrite (parse_supported_file_run get_file_extension DEFAULT_FILE_EXTRACTOR self
             _ _ _ _ parser w1 Hparser Hinit).
  now rewrite Hparse, He.
Qed.

End SynthesisExtras.

(** X18: with structured extraction off, the parser table plays no part:
    the loop of [_generate_documents] gives the same outcome under any two
    tables. *)
Theorem use_parser_off_ignores_parsers (get_file_extension : string -> string)
    (extractor1 extractor2 : gmap string Parser)
    (b64decode : string -> result bytes) (decode_utf8 : bytes -> result string)
    (self : GithubRepositoryReader) (buffered_iterator : list (M blob_data_and_path))
    (documents : list Document) (w : World) :
  _use_parser self = false ->
  generate_documents_loop get_file_extension extractor1 b64decode decode_utf8 self
    buffered_iterator documents w
  = generate_documents_loop get_file_extension extractor2 b64decode decode_utf8 self
      buffered_iterator documents w.
Proof.
  intros Huse. revert documents w.
  induction buffered_iterator as [|anext rest IH]; intros documents w; [reflexivity |].
  cbn [generate_documents_loop]. rewrite Huse.
  unfold bind, try_except, assert_.
  destruct (anext w) as [[blob_data full_path] w1|e w1|]; try reflexivity.
  cbn [fst snd].
  destruct (GitBlobResponseModel.encoding blob_data =? "base64")%string;
    cbn [ret raise]; [|reflexivity].
  destruct (b64decode (GitBlobResponseModel.content blob_data)) as [decoded_bytes|e];
    cbn [lift ret raise].
  - destruct (decode_utf8 decoded_bytes) as [decoded_text|e]; cbn [lift ret raise].
    + apply IH.
    + destruct (is_UnicodeDecodeError e); [apply IH | reflexivity].
  - destruct (is_BinasciiError e); [apply IH | reflexivity].
Qed.

Lemma use_parser_off_ignores_parsers_witness :
  generate_documents_loop Demo.get_file_extension Demo.DEFAULT_FILE_EXTRACTOR
    Demo.b64decode Demo.decode_utf8 (Demo.reader Demo.client false 5 None None)
    [ret (GitBlobResponseModel.mk "aGk=" "base64" "b4", "docs/readme.md")] [] Demo.w0
  = generate_documents_loop Demo.get_file_extension ∅
      Demo.b64decode Demo.decode_utf8 (Demo.reader Demo.client false 5 None None)
      [ret (GitBlobResponseModel.mk "aGk=" "base64" "b4", "docs/readme.md")] [] Demo.w0.
Proof.
  apply (use_parser_off_ignores_parsers Demo.get_file_extension
           Demo.DEFAULT_FILE_EXTRACTOR ∅ Demo.b64decode Demo.decode_utf8
           (Demo.reader Demo.client false 5 None None)
           [ret (GitBlobResponseModel.mk "aGk=" "base64" "b4", "docs/readme.md")]
           [] Demo.w0).
  reflexivity.
Defined.

Lemma keeps_fs_ret {A} (a : A) : keeps_fs (ret a).
Proof. intros w w' H. now injection H as <-. Qed.

Lemma keeps_fs_raise {A} (e : exn) : keeps_fs (raise (A := A) e).
Proof. intros w w' H. now injection H as <-. Qed.

Lemma keeps_fs_request {A} (c : api_call) (response : result A) :
  keeps_fs (request c response).
Proof.
  intros w w' H. unfold request in H.
  destruct response; cbn in H; now injection H as <-.
Qed.

Lemma keeps_fs_bind {A B} (m : M A) (k : A -> M B) :
  keeps_fs m ->
  (forall w a w1, m w = Returns a w1 -> keeps_fs (k a)) ->
  keeps_fs (bind m k).
Proof.
  intros Hm Hk w w' H. unfold bind in H.
  pose proof (Hm w) as Hm1.
  destruct (m w) as [a w1|e w1|] eqn:E; cbn [final_world] in Hm1.
  - rewrite (Hk w a w1 E w1 w' H). now apply Hm1.
  - apply Hm1. exact H.
  - discriminate H.
Qed.

Lemma recurse_tree_keeps_fs (get_file_extension : string -> string)
    (self : GithubRepositoryReader) (fuel : nat) (tree_sha cp : string) (cd : Z) :
  keeps_fs (_recurse_tree get_file_extension fuel self tree_sha cp cd).
Proof.
  intros w w' H.
  pose proof (recurse_tree_respects get_file_extension self
                (fun a b => fs b = fs a) (fun _ => True)
                ltac:(intros a b c Hab Hbc; congruence)
                ltac:(reflexivity) (fun _ _ _ _ => I)
                fuel tree_sha cp cd w) as Hinv.
  destruct (_recurse_tree _ _ _ _ _ _ w) as [l w1|e w1|]; cbn in H, Hinv.
  - injection H as <-. apply Hinv.
  - injection H as <-. exact Hinv.
  - discriminate H.
Qed.

Lemma Demo_iterator_keeps_fs : iterator_keeps_fs Demo.BufferedGitBlobDataIterator.
Proof.
  intros blobs_and_paths github_client owner repo buffer_size verbose.
  unfold Demo.BufferedGitBlobDataIterator.
  destruct (buffer_size <? 1); split.
  - apply keeps_fs_raise.
  - discriminate.
  - apply keeps_fs_ret.
  - intros w steps w1 [= <- _]. apply Forall_forall. intros step Hin.
    apply list_elem_of_fmap in Hin as (bp & -> & _).
    apply keeps_fs_bind; [apply keeps_fs_request |].
    intros. apply keeps_fs_ret.
Qed.

(** The name of the temporary file lies in the temporary directory and
    ends with a dot and the extension; neither name is in use. *)
Lemma temporary_file_name (f : gmap string fs_node) (file_extension : string) :
  inside (tmpdir_name f) (tmpfile_name f file_extension) = true
  /\ (exists stem, tmpfile_name f file_extension = stem +:+ "." +:+ file_extension)
  /\ f !! tmpdir_name f = None
  /\ f !! tmpfile_name f file_extension = None.
Proof.
  split; [|split; [|split]].
  - unfold inside, startswith. apply orb_true_iff. right. apply prefix_iff.
    unfold tmpfile_name, unique_name.
    eexists. rewrite !string_append_assoc. reflexivity.
  - unfold tmpfile_name, unique_name. eexists.
    rewrite <- !string_append_assoc. reflexivity.
  - apply tmpdir_name_fresh.
  - apply tmpfile_name_fresh.
Qed.

Section LoadExtras.

Variable get_file_extension : string -> string.
Variable DEFAULT_FILE_EXTRACTOR : gmap string Parser.
Variable b64decode : string -> result bytes.
Variable decode_utf8 : bytes -> result string.
Variable BufferedGitBlobDataIterator :
  list blob_and_path -> BaseGithubClient -> string -> string -> Z -> bool ->
  M (list (M blob_data_and_path)).

Hypothesis iterator_ok : iterator_keeps_fs BufferedGitBlobDataIterator.

Lemma generate_documents_keeps_fs (self : GithubRepositoryReader)
    (blobs_and_paths : list blob_and_path) :
  keeps_fs (_generate_documents get_file_extension DEFAULT_FILE_EXTRACTOR b64decode
              decode_utf8 BufferedGitBlobDataIterator self blobs_and_paths).
Proof.
  unfold _generate_documents.
  destruct (iterator_ok blobs_and_paths (_github_client self) (_owner self)
              (_repo self) (_concurrent_requests self) (_verbose self))
    as [Hbuild Hsteps].
  apply keeps_fs_bind; [exact Hbuild |].
  intros w steps w1 Hit w2 w3.
  apply generate_documents_loop_keeps_fs. now apply (Hsteps w steps w1).
Qed.

Lemma load_data_keeps_fs (fuel : nat) (self : GithubRepositoryReader)
    (commit_sha branch : option string) :
  keeps_fs (load_data get_file_extension DEFAULT_FILE_EXTRACTOR b64decode decode_utf8
              BufferedGitBlobDataIterator fuel self commit_sha branch).
Proof.
  destruct commit_sha as [commit_sha|], branch as [branch|].
  - apply keeps_fs_raise.
  - apply keeps_fs_bind; [apply keeps_fs_request |]. intros _ tree_sha _ _.
    apply keeps_fs_bind; [apply recurse_tree_keeps_fs |]. intros _ blobs _ _.
    apply generate_documents_keeps_fs.
  - apply keeps_fs_bind; [apply keeps_fs_request |]. intros _ tree_sha _ _.
    apply keeps_fs_bind; [apply recurse_tree_keeps_fs |]. intros _ blobs _ _.
    apply generate_documents_keeps_fs.
  - apply keeps_fs_raise.
Qed.

End LoadExtras.

(** X20: a harvest leaves no file behind.  If the blob iterator leaves the
    file system alone, then after [load_data], whether it returns the
    documents or raises, the file system is the one it started with. *)
Theorem load_data_keeps_file_system (get_file_extension : string -> string)
    (extractor : gmap string Parser) (b64decode : string -> result bytes)
    (decode_utf8 : bytes -> result string)
    (iterator : list blob_and_path -> BaseGithubClient -> string -> string -> Z ->
                bool -> M (list (M blob_data_and_path)))
    (fuel : nat) (self : GithubRepositoryReader) (commit_sha branch : option string)
    (w w' : World) :
  iterator_keeps_fs iterator ->
  final_world
    (load_data get_file_extension extractor b64decode decode_utf8 iterator fuel self
       commit_sha branch w) = Some w' ->
  fs w' = fs w.
Proof. intros Hit. now apply load_data_keeps_fs. Qed.

Lemma load_data_keeps_file_system_witness :
  fs {| fs := ∅;
        calls := [GetCommit "owner" "repo" "c0"; GetTree "owner" "repo" "t0";
                  GetTree "owner" "repo" "t1"; GetBlob "owner" "repo" "b1";
                  GetBlob "owner" "repo" "b3"; GetBlob "owner" "repo" "b2"];
        logged := [] |}
  = fs Demo.w0.
Proof.
  apply (load_data_keeps_file_system Demo.get_file_extension
           Demo.DEFAULT_FILE_EXTRACTOR Demo.b64decode Demo.decode_utf8
           Demo.BufferedGitBlobDataIterator 5
           (Demo.reader Demo.client true 2 (Some ([], EXCLUDE)) (Some ([], EXCLUDE)))
           (Some "c0") None Demo.w0
           {| fs := ∅;
              calls := [GetCommit "owner" "repo" "c0"; GetTree "owner" "repo" "t0";
                        GetTree "owner" "repo" "t1"; GetBlob "owner" "repo" "b1";
                        GetBlob "owner" "repo" "b3"; GetBlob "owner" "repo" "b2"];
              logged := [] |}).
  - exact Demo_iterator_keeps_fs.
  - vm_compute. reflexivity.
Defined.

Lemma documents_only_appended_witness :
  exists new,
    [raw_text_document "x" "b0" "x.txt"; raw_text_document "hi" "b2" "dir/b.txt"]
    = ([raw_text_document "x" "b0" "x.txt"] ++ new)%list
    /\ (length new <= 2)%nat.
Proof.
  apply (documents_only_appended Demo.get_file_extension Demo.DEFAULT_FILE_EXTRACTOR
           Demo.b64decode Demo.decode_utf8
           (Demo.reader Demo.client false 5 None None)
           [ret (GitBlobResponseModel.mk "aGk" "base64" "b1", "a.txt");
            ret (GitBlobResponseModel.mk "aGk=" "base64" "b2", "dir/b.txt")]
           [raw_text_document "x" "b0" "x.txt"]
           [raw_text_document "x" "b0" "x.txt"; raw_text_document "hi" "b2" "dir/b.txt"]
           Demo.w0 Demo.w0).
  reflexivity.
Defined.

Lemma synthesis_keeps_file_system_witness :
  fs (log_error Demo.w0
        (parse_error_message "papers/x.pdf" Demo.failing_parser
           (Exn (OtherException "ParseError") "broken file")))
  = fs Demo.w0.
Proof.
  apply (synthesis_keeps_file_system Demo.get_file_extension
           Demo.DEFAULT_FILE_EXTRACTOR Demo.b64decode Demo.decode_utf8
           (Demo.reader Demo.client true 5 None None)
           [ret (GitBlobResponseModel.mk "aGk=" "base64" "b4", "docs/readme.md");
            ret (GitBlobResponseModel.mk "aGk=" "base64" "b7", "papers/x.pdf")]
           [] Demo.w0).
  - repeat (constructor; [apply keeps_fs_ret |]). constructor.
  - reflexivity.
Defined.

Lemma base64_errors_witness :
  generate_documents_loop Demo.get_file_extension Demo.DEFAULT_FILE_EXTRACTOR
    Demo.b64decode Demo.decode_utf8 (Demo.reader Demo.client false 5 None None)
    [ret (GitBlobResponseModel.mk "aGk" "base64" "b1", "a.txt")] [] Demo.w0
  = Returns [] Demo.w0.
Proof.
  apply (base64_errors Demo.get_file_extension Demo.DEFAULT_FILE_EXTRACTOR
           Demo.b64decode Demo.decode_utf8 (Demo.reader Demo.client false 5 None None)
           (ret (GitBlobResponseModel.mk "aGk" "base64" "b1", "a.txt")) [] []
           (GitBlobResponseModel.mk "aGk" "base64" "b1") "a.txt"
           (Exn BinasciiError "Incorrect padding") Demo.w0 Demo.w0
           eq_refl eq_refl eq_refl).
Defined.

Lemma init_parser_failure_is_fatal_witness :
  generate_documents_loop Demo.get_file_extension
    {[ "md" := mkParser "MarkdownParser"
                 (Raise (Exn (OtherException "ImportError") "no markdown module"))
                 (fun _ _ => Ok []) ]}
    Demo.b64decode Demo.decode_utf8 (Demo.reader Demo.client true 5 None None)
    [ret (GitBlobResponseModel.mk "aGk=" "base64" "b1", "a.md")] [] Demo.w0
  = Raises (Exn (OtherException "ImportError") "no markdown module") Demo.w0.
Proof.
  apply (init_parser_failure_is_fatal Demo.get_file_extension
           {[ "md" := mkParser "MarkdownParser"
                        (Raise (Exn (OtherException "ImportError") "no markdown module"))
                        (fun _ _ => Ok []) ]}
           Demo.b64decode Demo.decode_utf8 (Demo.reader Demo.client true 5 None None)
           (ret (GitBlobResponseModel.mk "aGk=" "base64" "b1", "a.md")) [] []
           (GitBlobResponseModel.mk "aGk=" "base64" "b1") "a.md" Demo.hi
           (mkParser "MarkdownParser"
              (Raise (Exn (OtherException "ImportError") "no markdown module"))
              (fun _ _ => Ok []))
           (Exn (OtherException "ImportError") "no markdown module")
           Demo.w0 Demo.w0); reflexivity.
Defined.

Lemma raw_text_path_witness :
  generate_documents_loop Demo.get_file_extension Demo.DEFAULT_FILE_EXTRACTOR
    Demo.b64decode Demo.decode_utf8 (Demo.reader Demo.client true 5 None None)
    [ret (GitBlobResponseModel.mk "aGk=" "base64" "b5", "src/notes.xyz")] [] Demo.w0
  = Returns [raw_text_document "hi" "b5" "src/notes.xyz"] Demo.w0.
Proof.
  apply (raw_text_path Demo.get_file_extension Demo.DEFAULT_FILE_EXTRACTOR
           Demo.b64decode Demo.decode_utf8 (Demo.reader Demo.client true 5 None None)
           (ret (GitBlobResponseModel.mk "aGk=" "base64" "b5", "src/notes.xyz")) [] []
           (GitBlobResponseModel.mk "aGk=" "base64" "b5") "src/notes.xyz" Demo.hi
           Demo.w0 Demo.w0 eq_refl eq_refl eq_refl).
  right. reflexivity.
Defined.

Lemma parser_base_exception_propagates_witness :
  generate_documents_loop Demo.get_file_extension
    {[ "md" := mkParser "MarkdownParser" (Ok tt)
                 (fun _ _ => Raise (Exn KeyboardInterrupt "")) ]}
    Demo.b64decode Demo.decode_utf8 (Demo.reader Demo.client true 5 None None)
    [ret (GitBlobResponseModel.mk "aGk=" "base64" "b1", "a.md")] [] Demo.w0
  = Raises (Exn KeyboardInterrupt "") Demo.w0.
Proof.
  apply (parser_base_exception_propagates Demo.get_file_extension
           {[ "md" := mkParser "MarkdownParser" (Ok tt)
                        (fun _ _ => Raise (Exn KeyboardInterrupt "")) ]}
           Demo.b64decode Demo.decode_utf8 (Demo.reader Demo.client true 5 None None)
           (ret (GitBlobResponseModel.mk "aGk=" "base64" "b1", "a.md")) [] []
           (GitBlobResponseModel.mk "aGk=" "base64" "b1") "a.md" Demo.hi
           (mkParser "MarkdownParser" (Ok tt)
              (fun _ _ => Raise (Exn KeyboardInterrupt "")))
           (Exn KeyboardInterrupt "")
           Demo.w0 Demo.w0); reflexivity.
Defined.

(* ===================================================================== *)
(** ** The walk under both filters *)
(* ===================================================================== *)

Lemma add_calls_nil (w : World) : add_calls w [] = w.
Proof. destruct w. unfold add_calls. cbn. now rewrite app_nil_r. Qed.

Lemma add_calls_app (w : World) (a b : list api_call) :
  add_calls (add_calls w a) b = add_calls w (a ++ b).
Proof. unfold add_calls. cbn. now rewrite app_assoc. Qed.

Lemma check_filter_directories_spec (self : GithubRepositoryReader)
    (spec : list string * FilterType) (p : string) :
  _filter_directories self = Some spec ->
  _check_filter_directories self p = Ok (directory_admits spec p).
Proof.
  intros H. unfold _check_filter_directories, directory_admits.
  rewrite H. destruct spec as [dirs []]; reflexivity.
Qed.

Section BothFilters.

Variable get_file_extension : string -> string.
Variable self : GithubRepositoryReader.
Variable dir_spec ext_spec : list string * FilterType.
Hypothesis Hdirs : _filter_directories self = Some dir_spec.
Hypothesis Hexts : _filter_file_extensions self = Some ext_spec.

Lemma recurse_tree_loop_expected
    (recurse : string -> string -> Z -> M (list blob_and_path))
    (sub_blobs : string -> string -> list blob_and_path)
    (sub_requests : string -> string -> list api_call) cp cd tree_objs :
  Forall (fun tree_obj =>
            GitTreeObject.type tree_obj = "tree" ->
            forall p d w,
              recurse (GitTreeObject.sha tree_obj) p d w
              = Returns (sub_blobs (GitTreeObject.sha tree_obj) p)
                  (add_calls w (sub_requests (GitTreeObject.sha tree_obj) p)))
         tree_objs ->
  forall acc w,
    recurse_tree_loop get_file_extension recurse self cp cd tree_objs acc w
    = Returns
        (acc ++ flat_map (child_blobs get_file_extension dir_spec ext_spec
                            sub_blobs cp) tree_objs)%list
        (add_calls w (flat_map (child_requests dir_spec sub_requests cp) tree_objs)).
Proof.
  induction tree_objs as [|tree_obj rest IH]; intros Hsub acc w.
  - cbn. now rewrite app_nil_r, add_calls_nil.
  - apply Forall_cons in Hsub as [Hobj Hrest].
    rewrite recurse_tree_loop_cons. cbv zeta. cbn [flat_map].
    unfold child_blobs at 1. unfold child_requests at 1. cbv zeta.
    destruct (GitTreeObject.type tree_obj =? "tree")%string eqn:Etree.
    + apply String.eqb_eq in Etree.
      rewrite (check_filter_directories_spec self dir_spec) by exact Hdirs.
      unfold bind at 1. unfold lift, ret. cbn [andb].
      destruct (directory_admits dir_spec _); cbn [negb].
      * unfold bind. rewrite (Hobj Etree). rewrite (IH Hrest).
        now rewrite add_calls_app, app_assoc.
      * now rewrite (IH Hrest).
    + cbn [andb].
      destruct (GitTreeObject.type tree_obj =? "blob")%string.
      * rewrite (check_filter_file_extensions_spec get_file_extension self ext_spec)
          by exact Hexts.
        unfold bind, lift, ret.
        destruct (extension_admits get_file_extension ext_spec _); cbn [negb].
        -- rewrite (IH Hrest). now rewrite <- app_assoc.
        -- now rewrite (IH Hrest).
      * now rewrite (IH Hrest).
Qed.

Lemma recurse_tree_expected fuel :
  forall tree_sha cp cd w,
    tree_resolves self fuel tree_sha = true ->
    _recurse_tree get_file_extension fuel self tree_sha cp cd w
    = Returns
        (expected_blobs get_file_extension self dir_spec ext_spec fuel tree_sha cp)
        (add_calls w (expected_requests self dir_spec fuel tree_sha cp)).
Proof.
  induction fuel as [|fuel IH]; intros tree_sha cp cd w Hres; [discriminate Hres |].
  cbn [tree_resolves] in Hres.
  cbn [_recurse_tree expected_blobs expected_requests]. unfold bind, request.
  destruct (get_tree _ _ _ tree_sha) as [tree_data|e]; [|discriminate Hres].
  cbn [lift ret].
  rewrite (recurse_tree_loop_expected (_recurse_tree get_file_extension fuel self)
             (expected_blobs get_file_extension self dir_spec ext_spec fuel)
             (expected_requests self dir_spec fuel)).
  - cbn [app]. unfold add_calls. cbn [fs calls logged].
    now rewrite <- app_assoc.
  - apply Forall_forall. intros tree_obj Hin Htree p d w'.
    apply IH. rewrite forallb_forall in Hres. specialize (Hres tree_obj).
    rewrite Htree in Hres. apply Hres. now apply list_elem_of_In.
Qed.

End BothFilters.

(** C3, amended: when both filters are configured, the walk applies both.
    On a tree the client serves in full, it requests the root tree and, of
    the subdirectories it meets, exactly those whose path the directory
    filter admits (a rejected subdirectory is neither requested nor
    entered); it returns, in depth-first tree order, exactly the blob
    children of the requested trees whose path the extension filter admits.
    The extension filter does remove blobs from the result. *)
Theorem walk_applies_both_filters (get_file_extension : string -> string)
    (self : GithubRepositoryReader) (dir_spec ext_spec : list string * FilterType)
    (fuel : nat) (tree_sha current_path : string) (current_depth : Z) (w : World) :
  _filter_directories self = Some dir_spec ->
  _filter_file_extensions self = Some ext_spec ->
  tree_resolves self fuel tree_sha = true ->
  _recurse_tree get_file_extension fuel self tree_sha current_path current_depth w
  = Returns
      (expected_blobs get_file_extension self dir_spec ext_spec fuel tree_sha
         current_path)
      (add_calls w (expected_requests self dir_spec fuel tree_sha current_path)).
Proof.
  intros Hdirs Hexts Hres.
  now apply recurse_tree_expected.
Qed.

Lemma walk_applies_both_filters_witness :
  _recurse_tree Demo.get_file_extension 2
    (Demo.reader Demo.client true 5 (Some (["docs"], EXCLUDE))
       (Some ([".png"; "png"], EXCLUDE))) "t0" "" 0 Demo.w0
  = Returns [(Demo.obj "a.md" "blob" "b1", "a.md")]
      (add_calls Demo.w0 [GetTree "owner" "repo" "t0"])
  /\ _recurse_tree Demo.get_file_extension 2
       (Demo.reader Demo.client true 5 (Some (["docs"], INCLUDE))
          (Some ([], EXCLUDE))) "t0" "" 0 Demo.w0
     = Returns [(Demo.obj "a.md" "blob" "b1", "a.md");
                (Demo.obj "readme.md" "blob" "b3", "docs/readme.md");
                (Demo.obj "b.png" "blob" "b2", "b.png")]
         (add_calls Demo.w0 [GetTree "owner" "repo" "t0"; GetTree "owner" "repo" "t1"]).
Proof.
  split.
  - apply (walk_applies_both_filters Demo.get_file_extension
             (Demo.reader Demo.client true 5 (Some (["docs"], EXCLUDE))
                (Some ([".png"; "png"], EXCLUDE)))
             (["docs"], EXCLUDE) ([".png"; "png"], EXCLUDE) 2 "t0" "" 0 Demo.w0);
      reflexivity.
  - apply (walk_applies_both_filters Demo.get_file_extension
             (Demo.reader Demo.client true 5 (Some (["docs"], INCLUDE))
                (Some ([], EXCLUDE)))
             (["docs"], INCLUDE) ([], EXCLUDE) 2 "t0" "" 0 Demo.w0);
      reflexivity.
Defined.

(* ===================================================================== *)
(** ** Where the claims of the spec stop holding *)
(* ===================================================================== *)

(** C6, as the spec states it, fails.  A parser is registered for "md" and
    structured extraction is on; the first blob is a.md and the second one
    is a well-formed text blob.  When the parser raises in [init_parser],
    and when its [parse_file] raises [KeyboardInterrupt], the loop does not
    fall back to the raw text of a.md: it raises that error and returns no
    documents. *)
Lemma registered_parser_failure_aborts :
  generate_documents_loop Demo.get_file_extension
    {[ "md" := mkParser "MarkdownParser"
                 (Raise (Exn (OtherException "ImportError") "no markdown module"))
                 (fun _ _ => Ok []) ]}
    Demo.b64decode Demo.decode_utf8 (Demo.reader Demo.client true 5 None None)
    [ret (GitBlobResponseModel.mk "aGk=" "base64" "b1", "a.md");
     ret (GitBlobResponseModel.mk "aGk=" "base64" "b2", "b.txt")] [] Demo.w0
  = Raises (Exn (OtherException "ImportError") "no markdown module") Demo.w0
  /\ generate_documents_loop Demo.get_file_extension
       {[ "md" := mkParser "MarkdownParser" (Ok tt)
                    (fun _ _ => Raise (Exn KeyboardInterrupt "interrupted")) ]}
       Demo.b64decode Demo.decode_utf8 (Demo.reader Demo.client true 5 None None)
       [ret (GitBlobResponseModel.mk "aGk=" "base64" "b1", "a.md");
        ret (GitBlobResponseModel.mk "aGk=" "base64" "b2", "b.txt")] [] Demo.w0
     = Raises (Exn KeyboardInterrupt "interrupted") Demo.w0.
Proof. split; vm_compute; reflexivity. Qed.

(** C10, as the spec states it, fails.  The walk completes without a
    directory filter on a tree that holds only a blob, and without any
    filter on a tree that holds only a submodule.  And without an extension
    filter, on a tree with a blob child, it raises the error of the client,
    not a [TypeError], when the request for a subdirectory met before the
    blob fails. *)
Lemma walk_can_complete_without_a_filter :
  _recurse_tree Demo.get_file_extension 5
    (Demo.reader Demo.one_blob_client true 5 None (Some ([], EXCLUDE)))
    "t0" "" 0 Demo.w0
  = Returns [(Demo.obj "b.png" "blob" "b2", "b.png")]
      (log_call Demo.w0 (GetTree "owner" "repo" "t0"))
  /\ _recurse_tree Demo.get_file_extension 5
       (Demo.reader
          (mkClient (fun _ _ _ => Ok "t0") (fun _ _ _ => Ok "t0")
             (fun _ _ _ =>
                Ok (GitTreeResponseModel.mk "t0" [Demo.obj "vendor/lib" "commit" "s1"]))
             (fun _ _ blob_sha => Ok (GitBlobResponseModel.mk "aGk=" "base64" blob_sha)))
          true 5 None None)
       "t0" "" 0 Demo.w0
     = Returns [] (log_call Demo.w0 (GetTree "owner" "repo" "t0"))
  /\ _recurse_tree Demo.get_file_extension 5
       (Demo.reader
          (mkClient (fun _ _ _ => Ok "t0") (fun _ _ _ => Ok "t0")
             (fun _ _ tree_sha =>
                if (tree_sha =? "t0")%string
                then Ok (GitTreeResponseModel.mk "t0"
                           [Demo.obj "docs" "tree" "t1"; Demo.obj "a.md" "blob" "b1"])
                else Raise (Demo.api_error tree_sha))
             (fun _ _ blob_sha => Ok (GitBlobResponseModel.mk "aGk=" "base64" blob_sha)))
          true 5 (Some ([], EXCLUDE)) None)
       "t0" "" 0 Demo.w0
     = Raises (Demo.api_error "t1")
         (add_calls Demo.w0 [GetTree "owner" "repo" "t0"; GetTree "owner" "repo" "t1"]).
Proof. repeat split. Qed.

(** X19: the parser is called on a path that lies in a temporary directory
    made for this call and that ends with a dot and the extension of the
    blob's path.  Neither the directory nor the file existed before; on the
    file system the parser sees, the file holds the decoded bytes and every
    other path is as it was. *)
Theorem parser_called_in_temporary_directory (get_file_extension : string -> string)
    (self : GithubRepositoryReader) (file_path : string) (file_content : bytes)
    (tree_sha tree_path : string) (w : World) :
  exists tmpdir tmpfile fs_parse,
    fs w !! tmpdir = None
    /\ fs w !! tmpfile = None
    /\ fs_parse !! tmpdir = Some Dir
    /\ fs_parse !! tmpfile = Some (File file_content)
    /\ (forall p, p <> tmpdir -> p <> tmpfile -> fs_parse !! p = fs w !! p)
    /\ inside tmpdir tmpfile = true
    /\ (exists stem, tmpfile = stem +:+ "." +:+ get_file_extension file_path)
    /\ forall (extractor : gmap string Parser) (parser : Parser),
         extractor !! get_file_extension file_path = Some parser ->
         init_parser parser = Ok tt ->
         _parse_supported_file get_file_extension extractor self file_path
           file_content tree_sha tree_path w
         = match parse_file parser fs_parse tmpfile with
           | Ok parsed_file =>
               Returns (Some {| text := join_double_newline parsed_file;
                                doc_id := tree_sha;
                                extra_info := {[ "file_path" := file_path;
                                                 "file_name" := tree_path ]} |}) w
           | Raise e =>
               if is_Exception e
               then Returns None (log_error w (parse_error_message file_path parser e))
               else Raises e w
           end.
Proof.
  exists (tmpdir_name (fs w)), (tmpfile_name (fs w) (get_file_extension file_path)),
    (fs_at_parse (fs w) (get_file_extension file_path) file_content).
  destruct (temporary_file_name (fs w) (get_file_extension file_path))
    as (Hinside & Hstem & Hdir & Hfile).
  pose proof (tmpfile_name_fresh_in_dir (fs w) (get_file_extension file_path)) as Hne.
  apply lookup_insert_None in Hne as [_ Hne].
  split; [exact Hdir |]. split; [exact Hfile |].
  split; [unfold fs_at_parse; rewrite lookup_insert_ne by congruence;
          apply lookup_insert_eq |].
  split; [apply tmpfile_in_fs_at_parse |].
  split; [intros p Hp1 Hp2; unfold fs_at_parse;
          now rewrite !lookup_insert_ne by congruence |].
  split; [exact Hinside |]. split; [exact Hstem |].
  intros extractor parser Hparser Hinit.
  now apply parse_supported_file_run.
Qed.

Lemma parser_called_in_temporary_directory_witness :
  exists tmpdir tmpfile fs_parse,
    inside tmpdir tmpfile = true
    /\ fs_parse !! tmpfile = Some (File Demo.hi)
    /\ _parse_supported_file Demo.get_file_extension Demo.DEFAULT_FILE_EXTRACTOR
         (Demo.reader Demo.client true 5 None None) "docs/readme.md" Demo.hi
         "b4" "docs/readme.md" Demo.w0
       = match parse_file Demo.md_parser fs_parse tmpfile with
         | Ok parsed_file =>
             Returns (Some {| text := join_double_newline parsed_file;
                              doc_id := "b4";
                              extra_info := {[ "file_path" := "docs/readme.md";
                                               "file_name" := "docs/readme.md" ]} |})
               Demo.w0
         | Raise e =>
             if is_Exception e
             then Returns None
                    (log_error Demo.w0
                       (parse_error_message "docs/readme.md" Demo.md_parser e))
             else Raises e Demo.w0
         end.
Proof.
  destruct (parser_called_in_temporary_directory Demo.get_file_extension
              (Demo.reader Demo.client true 5 None None) "docs/readme.md" Demo.hi
              "b4" "docs/readme.md" Demo.w0)
    as (tmpdir & tmpfile & fs_parse & _ & _ & _ & Hfile & _ & Hinside & _ & Hrun).
  exists tmpdir, tmpfile, fs_parse.
  split; [exact Hinside |]. split; [exact Hfile |].
  apply (Hrun Demo.DEFAULT_FILE_EXTRACTOR Demo.md_parser); reflexivity.
Defined.
